(** * Financial health analyzer: a shallow embedding of [app.py]

    The scoring and report engine of [FinancialHealthAnalyzer] is embedded
    method by method.  Conventions:

    - Python [int] is [Z]; Python [float] is [Q]: the arithmetic of the
      engine is exact (the rounding of each operation, infinities and NaN
      are not modelled; equalities between floats are stated with [==]);
      where a float is printed, the string is that of the binary64 number
      nearest to the value, [b64], which is the float the program holds
      whenever the value comes from one operation on representable inputs;
    - a Python [dict] whose insertion order is observable is an association
      list ([dict]); the request record [data] is a Rocq record, since the
      request handler rejects requests with a missing field;
    - every method runs in the monad [M]: it receives the analyzer instance
      ([self]), may raise a Python exception, and returns the instance;
    - [datetime.now()] is the explicit argument [now]. *)

From Stdlib Require Import ZArith QArith Qround Qabs Qminmax Qpower Lqa Lia.
From Stdlib Require Import List String Ascii Bool DecimalString.
Import ListNotations.

Open Scope string_scope.
Open Scope Z_scope.
Open Scope Q_scope.

(** ** Python primitives *)

(** Comparisons of floats. *)
Definition Qltb (x y : Q) : bool := negb (Qle_bool y x).

Notation "x =? y" := (Qeq_bool x y) : Q_scope.
Notation "x <=? y" := (Qle_bool x y) : Q_scope.
Notation "x <? y" := (Qltb x y) : Q_scope.
Notation "x >=? y" := (Qle_bool y x) : Q_scope.
Notation "x >? y" := (Qltb y x) : Q_scope.

(** The builtins [min(a, b)] and [max(a, b)]: the first argument is kept
    unless the second is strictly smaller (resp. larger). *)
Definition pymin (a b : Q) : Q := if b <? a then b else a.
Definition pymax (a b : Q) : Q := if b >? a then b else a.

(** Exceptions the engine can meet. *)
Inductive exn : Type :=
| ZeroDivisionError
| KeyError (key : string).

Inductive outcome (A : Type) : Type :=
| Ok (a : A)
| Raise (e : exn).
Arguments Ok {A} a.
Arguments Raise {A} e.

(** The instance fields set by [__init__]. *)
Record FinancialHealthAnalyzer : Type := mkAnalyzer {
  report_data : list (string * string);
  recommendations : list string;
  warnings : list string
}.

(** [__init__] *)
Definition __init__ : FinancialHealthAnalyzer :=
  {| report_data := []; recommendations := []; warnings := [] |}.

(** A method call: from the instance before the call to the outcome and the
    instance after it. *)
Definition M (A : Type) : Type :=
  FinancialHealthAnalyzer -> outcome A * FinancialHealthAnalyzer.

Definition ret {A : Type} (a : A) : M A := fun self => (Ok a, self).

Definition raise {A : Type} (e : exn) : M A := fun self => (Raise e, self).

Definition bind {A B : Type} (m : M A) (k : A -> M B) : M B :=
  fun self =>
    match m self with
    | (Ok a, self') => k a self'
    | (Raise e, self') => (Raise e, self')
    end.

Notation "x <- m ;; k" := (bind m (fun x => k))
  (at level 61, m at next level, right associativity).

(** True division [a / b]. *)
Definition pydiv (a b : Q) : M Q :=
  if b =? 0 then raise ZeroDivisionError else ret (a / b).

Infix "//" := pydiv (at level 40, left associativity).

(** Dictionaries with string keys, in insertion order. *)
Definition dict (V : Type) : Type := list (string * V).

Fixpoint dict_get {V : Type} (k : string) (d : dict V) : M V :=
  match d with
  | [] => raise (KeyError k)
  | (k', v) :: d' => if String.eqb k k' then ret v else dict_get k d'
  end.

Fixpoint dict_set {V : Type} (k : string) (v : V) (d : dict V) : dict V :=
  match d with
  | [] => [(k, v)]
  | (k', v') :: d' =>
      if String.eqb k k' then (k', v) :: d' else (k', v') :: dict_set k v d'
  end.

(** [x in [a; b; ...]] on strings. *)
Definition str_in (x : string) (l : list string) : bool :=
  existsb (String.eqb x) l.

(** [needle in haystack] on strings. *)
Fixpoint contains (needle haystack : string) : bool :=
  if String.prefix needle haystack then true
  else match haystack with
       | EmptyString => false
       | String _ rest => contains needle rest
       end.

(** ** The request record *)

Record FinancialProfile : Type := mkProfile {
  age : Z;
  salary : Q;
  city_index : Q;
  assets : Q;
  liabilities : Q;
  loans : Z;
  emi : Q;
  responsibilities : Z;
  savings : Q;
  credit_score : Z;
  investments : Q;
  monthly_expenses : Q;
  risk_tolerance : Q;
  budget : bool;
  insurance : string;
  expense_tracking : string;
  retirement : bool;
  high_risk_percent : Z;
  automate : bool;
  defaulted : bool;
  advisor : bool;
  confidence : Z;
  review_goals : bool
}.

(** ** Factor normalizers *)

Definition _calculate_age_factor (age : Z) : M Q :=
  if (age <? 25)%Z then ret 0.9
  else if (age <? 35)%Z then ret 0.8
  else if (age <? 45)%Z then ret 0.6
  else if (age <? 55)%Z then ret 0.4
  else ret 0.2.

Definition _calculate_income_stability (salary city_index : Q) : M Q :=
  if city_index =? 0 then ret 0.0
  else
    adjusted_income <- salary // (city_index * 100000) ;;
    normalized <- adjusted_income // 10 ;;
    ret (pymin 1.0 normalized).

Definition _calculate_net_worth_ratio (assets liabilities salary : Q) : M Q :=
  if salary =? 0 then ret 0.0
  else
    net_worth_multiple <- (assets - liabilities) // salary ;;
    capped <- net_worth_multiple // 5 ;;
    ret (pymin 1.0 (pymax 0 capped)).

Definition _calculate_debt_burden (emi liabilities salary : Q) : M Q :=
  if salary =? 0 then ret 1.0
  else
    total_debt_ratio <- (emi + liabilities * 0.1) // salary ;;
    ret (pymin 1.0 total_debt_ratio).

Definition _calculate_liquidity_score (savings monthly_expenses : Q) : M Q :=
  if monthly_expenses =? 0 then ret 0.5
  else
    emergency_months <- savings // monthly_expenses ;;
    if emergency_months >=? 12 then ret 1.0
    else if emergency_months >=? 6 then ret 0.8
    else if emergency_months >=? 3 then ret 0.6
    else
      normalized <- emergency_months // 6 ;;
      ret (pymin 1.0 normalized).

Definition _calculate_credit_health (credit_score : Z) (defaulted : bool) : M Q :=
  let base_score := if defaulted then 0.3 else 1.0 in
  let credit_factor :=
    if (credit_score >=? 750)%Z then 1.0
    else if (credit_score >=? 650)%Z then 0.7
    else if (credit_score >=? 550)%Z then 0.4
    else 0.1 in
  ret (base_score * credit_factor).

Definition _calculate_investment_maturity (investments assets : Q) : M Q :=
  if assets =? 0 then ret 0.0
  else
    investment_ratio <- investments // assets ;;
    ret (pymin 1.0 investment_ratio).

Definition _calculate_behavioral_score (data : FinancialProfile) : M Q :=
  let score := 0%Z in
  let total_factors := 8%Z in
  let score := if data.(budget) then (score + 1)%Z else score in
  let score :=
    if str_in data.(expense_tracking) ["Monthly"; "Daily"]
    then (score + 1)%Z else score in
  let score :=
    if str_in data.(insurance) ["Health"; "Life"; "Both"]
    then (score + 1)%Z else score in
  let score := if data.(retirement) then (score + 1)%Z else score in
  let score := if data.(automate) then (score + 1)%Z else score in
  let score := if negb data.(defaulted) then (score + 1)%Z else score in
  let score := if (data.(confidence) >=? 7)%Z then (score + 1)%Z else score in
  let score := if data.(review_goals) then (score + 1)%Z else score in
  inject_Z score // inject_Z total_factors.

(** ** Risk aggregator *)

Definition calculate_comprehensive_risk_score (data : FinancialProfile)
  : M (Q * dict Q) :=
  age_factor <- _calculate_age_factor data.(age) ;;
  income_stability <-
    _calculate_income_stability data.(salary) data.(city_index) ;;
  net_worth_ratio <-
    _calculate_net_worth_ratio data.(assets) data.(liabilities) data.(salary) ;;
  debt_burden <-
    _calculate_debt_burden data.(emi) data.(liabilities) data.(salary) ;;
  liquidity_score <-
    _calculate_liquidity_score data.(savings) data.(monthly_expenses) ;;
  credit_health <-
    _calculate_credit_health data.(credit_score) data.(defaulted) ;;
  investment_maturity <-
    _calculate_investment_maturity data.(investments) data.(assets) ;;
  behavioral_score <- _calculate_behavioral_score data ;;
  let weights : dict Q :=
    [ ("age_factor", 0.15);
      ("income_stability", 0.20);
      ("net_worth_ratio", 0.15);
      ("debt_burden", 0.20);
      ("liquidity_score", 0.10);
      ("credit_health", 0.10);
      ("investment_maturity", 0.05);
      ("behavioral_score", 0.05) ] in
  w_age_factor <- dict_get "age_factor" weights ;;
  w_income_stability <- dict_get "income_stability" weights ;;
  w_net_worth_ratio <- dict_get "net_worth_ratio" weights ;;
  w_debt_burden <- dict_get "debt_burden" weights ;;
  w_liquidity_score <- dict_get "liquidity_score" weights ;;
  w_credit_health <- dict_get "credit_health" weights ;;
  w_investment_maturity <- dict_get "investment_maturity" weights ;;
  w_behavioral_score <- dict_get "behavioral_score" weights ;;
  let risk_score :=
    (age_factor * w_age_factor +
     income_stability * w_income_stability +
     net_worth_ratio * w_net_worth_ratio +
     (1 - debt_burden) * w_debt_burden +
     liquidity_score * w_liquidity_score +
     credit_health * w_credit_health +
     investment_maturity * w_investment_maturity +
     behavioral_score * w_behavioral_score +
     data.(risk_tolerance) * 0.1) * 100 in
  let breakdown : dict Q :=
    [ ("Age Factor", age_factor * 100);
      ("Income Stability", income_stability * 100);
      ("Net Worth Ratio", net_worth_ratio * 100);
      ("Debt Management", (1 - debt_burden) * 100);
      ("Liquidity Position", liquidity_score * 100);
      ("Credit Health", credit_health * 100);
      ("Investment Maturity", investment_maturity * 100);
      ("Financial Behavior", behavioral_score * 100);
      ("Risk Tolerance", data.(risk_tolerance) * 100) ] in
  ret (pymax 0 (pymin 100 risk_score), breakdown).

(** ** Profile classifier *)

Record InvestorProfile : Type := mkInvestorProfile {
  profile : string;
  capacity : string;
  description : string;
  allocation : string;
  investment_horizon : string
}.

Definition interpret_risk_profile (risk_score : Q) : M InvestorProfile :=
  if risk_score >=? 80 then
    ret {| profile := "Aggressive Investor";
           capacity := "Very High";
           description :=
             "Strong financial foundation with high risk-taking ability";
           allocation :=
             "Equity: 70-80%, Bonds: 10-15%, Alternatives: 10-15%";
           investment_horizon := "15+ years" |}
  else if risk_score >=? 65 then
    ret {| profile := "Growth Investor";
           capacity := "High";
           description :=
             "Good financial position suitable for growth-oriented investments";
           allocation :=
             "Equity: 60-70%, Bonds: 20-25%, Alternatives: 10-15%";
           investment_horizon := "10-15 years" |}
  else if risk_score >=? 45 then
    ret {| profile := "Balanced Investor";
           capacity := "Moderate";
           description := "Stable finances with moderate risk appetite";
           allocation :=
             "Equity: 40-50%, Bonds: 30-40%, Alternatives: 10-20%";
           investment_horizon := "7-10 years" |}
  else if risk_score >=? 25 then
    ret {| profile := "Conservative Investor";
           capacity := "Low";
           description := "Limited risk capacity, focus on stability";
           allocation := "Equity: 20-30%, Bonds: 50-60%, Cash: 20-30%";
           investment_horizon := "3-7 years" |}
  else
    ret {| profile := "Capital Preservation";
           capacity := "Very Low";
           description :=
             "Priority should be financial stability and emergency planning";
           allocation := "Bonds: 40-50%, Cash/FD: 40-50%, Equity: 0-10%";
           investment_horizon := "1-3 years" |}.

(** ** Ratio engine *)

Definition calculate_key_ratios (data : FinancialProfile) : M (dict Q) :=
  let ratios : dict Q := [] in
  v <- (if data.(salary) >? 0
        then (data.(emi) + data.(liabilities) * 0.1) // data.(salary)
        else ret 0) ;;
  let ratios := dict_set "debt_to_income" v ratios in
  v <- (if data.(salary) >? 0
        then data.(savings) // data.(salary)
        else ret 0) ;;
  let ratios := dict_set "savings_rate" v ratios in
  v <- (if data.(monthly_expenses) >? 0
        then data.(savings) // data.(monthly_expenses)
        else ret 0) ;;
  let ratios := dict_set "emergency_fund_months" v ratios in
  v <- (if data.(salary) >? 0
        then data.(investments) // data.(salary)
        else ret 0) ;;
  let ratios := dict_set "investment_rate" v ratios in
  let ratios :=
    dict_set "net_worth" (data.(assets) - data.(liabilities)) ratios in
  v <- (if data.(assets) >? 0
        then data.(investments) // data.(assets)
        else ret 0) ;;
  let ratios := dict_set "asset_utilization" v ratios in
  v <- (if data.(salary) >? 0
        then (data.(monthly_expenses) * 12) // data.(salary)
        else ret 0) ;;
  let ratios := dict_set "expense_ratio" v ratios in
  ret ratios.

(** ** Number formatting *)

(** Nearest integer, ties to the even one: the rounding of binary64
    arithmetic and of the format specifications [.Nf] and [.N%]. *)
Definition round_half_even (x : Q) : Z :=
  let f := Qfloor x in
  let r := x - inject_Z f in
  if r <? (1 # 2) then f
  else if r >? (1 # 2) then (f + 1)%Z
  else if Z.even f then f else (f + 1)%Z.

(** [floor (log2 x)] for a positive [x]. *)
Definition ilog2 (x : Q) : Z :=
  let k := (Z.log2 (Qnum x) - Z.log2 (Zpos (Qden x)))%Z in
  if 2 ^ k <=? x then k else (k - 1)%Z.

(** The binary64 number nearest to [x], ties to the even significand:
    53 significant bits, exponents from -1022 (below that, multiples of
    [2 ^ -1074]).  Numbers beyond the largest binary64 number, where the
    program holds an infinity, are not modelled. *)
Definition b64 (x : Q) : Q :=
  if x =? 0 then 0
  else
    let e := Z.max (ilog2 (Qabs x)) (-1022) in
    let ulp := 2 ^ (e - 52) in
    inject_Z (round_half_even (x / ulp)) * ulp.

(** [str(n)] for an integer. *)
Definition str_int (n : Z) : string := NilZero.string_of_int (Z.to_int n).

(** [s.zfill(width)] for a string of digits. *)
Definition zfill (width : nat) (s : string) : string :=
  string_of_list_ascii (repeat "0"%char (width - String.length s)) ++ s.

(** Thousands separators, on the digits from the least significant one. *)
Fixpoint commas_rev (digits : list ascii) (seen : nat) : list ascii :=
  match digits with
  | [] => []
  | c :: rest =>
      match seen with
      | 3%nat => ","%char :: c :: commas_rev rest 1
      | _ => c :: commas_rev rest (S seen)
      end
  end.

Definition group_thousands (s : string) : string :=
  string_of_list_ascii (rev (commas_rev (rev (list_ascii_of_string s)) 0)).

(** [f"{x:.<prec>f}"]: the float [x] to [prec] decimals. *)
Definition format_f (prec : nat) (x : Q) : string :=
  let scale := (10 ^ Z.of_nat prec)%Z in
  let n := round_half_even (Qabs (b64 x) * inject_Z scale) in
  let sign := if x <? 0 then "-" else "" in
  match prec with
  | O => sign ++ str_int n
  | _ => sign ++ str_int (n / scale) ++ "." ++ zfill prec (str_int (n mod scale))
  end.

(** [f"{x:,.0f}"] *)
Definition format_comma_f0 (x : Q) : string :=
  let n := round_half_even (Qabs (b64 x)) in
  (if x <? 0 then "-" else "") ++ group_thousands (str_int n).

(** [f"{x:.<prec>%}"]: the float [x] times 100, in floating point, to
    [prec] decimals. *)
Definition format_pct (prec : nat) (x : Q) : string :=
  format_f prec (b64 x * 100) ++ "%".

(** The currency symbol, as the bytes of the source file. *)
Definition currency_symbol : string := "‚Çπ".

Definition format_currency (amount : Q) : M string :=
  if amount >=? 10000000 then
    crores <- amount // 10000000 ;;
    ret (currency_symbol ++ format_f 2 crores ++ " Cr")
  else if amount >=? 100000 then
    lakhs <- amount // 100000 ;;
    ret (currency_symbol ++ format_f 2 lakhs ++ " L")
  else
    ret (currency_symbol ++ format_comma_f0 amount).

(** ** Rule engine *)

(** [l.append(x)] on the local list [l]. *)
Definition append (l : list string) (x : string) : list string := l ++ [x].

(** A subscript that is repeated inside an f-string reads the same,
    unchanged dictionary again; the value of the first read is reused. *)
Definition generate_recommendations
  (data : FinancialProfile) (risk_score : Q) (ratios : dict Q)
  : M (list string) :=
  let recommendations : list string := [] in
  emergency_fund_months <- dict_get "emergency_fund_months" ratios ;;
  let recommendations :=
    if emergency_fund_months <? 6 then
      append recommendations
        ("üö® Build emergency fund: You have "
         ++ format_f 1 emergency_fund_months
         ++ " months of expenses. Aim for 6-12 months.")
    else recommendations in
  debt_to_income <- dict_get "debt_to_income" ratios ;;
  let recommendations :=
    if debt_to_income >? 0.4 then
      append recommendations
        ("üí≥ Reduce debt burden: " ++ format_pct 1 debt_to_income
         ++ " debt-to-income is high. Target below 30%.")
    else recommendations in
  savings_rate <- dict_get "savings_rate" ratios ;;
  let recommendations :=
    if savings_rate <? 0.2 then
      append recommendations
        ("üí∞ Increase savings: " ++ format_pct 1 savings_rate
         ++ " savings rate is low. Aim for 20%+ of income.")
    else recommendations in
  investment_rate <- dict_get "investment_rate" ratios ;;
  let recommendations :=
    if (investment_rate <? 0.15) && (risk_score >? 40) then
      append recommendations
        "üìà Increase investments: Consider systematic investment plans (SIPs) for wealth building."
    else recommendations in
  let recommendations :=
    if String.eqb data.(insurance) "None" then
      append recommendations
        "üõ°Ô∏è Get insurance: Health and term life insurance are essential for financial security."
    else recommendations in
  let recommendations :=
    if (data.(credit_score) <? 650)%Z then
      append recommendations
        "üìä Improve credit score: Pay bills on time, reduce credit utilization, check credit report."
    else recommendations in
  let recommendations :=
    if negb data.(budget) then
      append recommendations
        "üìã Create a budget: Track income and expenses to improve financial control."
    else recommendations in
  let recommendations :=
    if negb data.(automate) then
      append recommendations
        "‚öôÔ∏è Automate finances: Set up automatic savings and bill payments."
    else recommendations in
  let recommendations :=
    if (data.(age) <? 30)%Z && negb data.(retirement) then
      append recommendations
        "üéØ Start retirement planning: Time is your biggest advantage for long-term wealth."
    else recommendations in
  ret recommendations.

Definition generate_warnings (data : FinancialProfile) (ratios : dict Q)
  : M (list string) :=
  let warnings : list string := [] in
  debt_to_income <- dict_get "debt_to_income" ratios ;;
  let warnings :=
    if debt_to_income >? 0.5 then
      append warnings
        "‚ö†Ô∏è CRITICAL: Debt-to-income ratio exceeds 50% - immediate debt restructuring needed"
    else warnings in
  emergency_fund_months <- dict_get "emergency_fund_months" ratios ;;
  let warnings :=
    if emergency_fund_months <? 1 then
      append warnings
        "‚ö†Ô∏è HIGH RISK: No emergency fund - vulnerable to financial shocks"
    else warnings in
  let warnings :=
    if (data.(credit_score) <? 500)%Z then
      append warnings
        "‚ö†Ô∏è URGENT: Very poor credit score - will severely limit financial options"
    else warnings in
  expense_ratio <- dict_get "expense_ratio" ratios ;;
  let warnings :=
    if expense_ratio >? 0.9 then
      append warnings
        "‚ö†Ô∏è CRITICAL: Expenses consume 90%+ of income - unsustainable lifestyle"
    else warnings in
  let warnings :=
    if data.(defaulted) && (data.(loans) >? 0)%Z then
      append warnings
        "‚ö†Ô∏è HIGH RISK: Previous defaults with current loans - monitor closely"
    else warnings in
  ret warnings.

Definition _generate_action_plan
  (data : FinancialProfile) (ratios : dict Q) (risk_score : Q)
  : M (list string) :=
  let actions : list string := [] in
  emergency_fund_months <- dict_get "emergency_fund_months" ratios ;;
  let actions :=
    if emergency_fund_months <? 3 then
      append actions
        "Open a high-yield savings account and set up automatic transfer for emergency fund"
    else actions in
  let actions :=
    if negb data.(budget) then
      append actions
        "Download a budgeting app and track all expenses for 30 days"
    else actions in
  let actions :=
    if String.eqb data.(insurance) "None" then
      append actions
        "Research and compare health insurance plans, get quotes for term life insurance"
    else actions in
  let actions :=
    if (data.(credit_score) <? 650)%Z then
      append actions
        "Obtain free credit report, dispute any errors, and set up payment reminders"
    else actions in
  let actions :=
    if negb data.(automate) then
      append actions "Set up automatic bill payments and SIP investments"
    else actions in
  debt_to_income <- dict_get "debt_to_income" ratios ;;
  let actions :=
    if debt_to_income >? 0.4 then
      append actions
        "List all debts, consider debt consolidation options, create repayment plan"
    else actions in
  let actions :=
    append actions
      "Review and optimize current investment portfolio based on risk profile" in
  let actions :=
    append actions
      "Schedule financial goal review and create/update investment strategy" in
  ret (firstn 6 actions).

(** ** Report assembler *)

(** The reading of the system clock, [datetime.now()]. *)
Record datetime : Type := mkDatetime {
  year : Z;
  month : Z;
  day : Z;
  hour : Z;
  minute : Z;
  second : Z;
  microsecond : Z
}.

Definition month_names : list string :=
  [ "January"; "February"; "March"; "April"; "May"; "June"; "July";
    "August"; "September"; "October"; "November"; "December" ].

(** [now.strftime('%B %d, %Y at %I:%M %p')] in the C locale. *)
Definition strftime_generated_on (now : datetime) : string :=
  let hour12 := (now.(hour) mod 12)%Z in
  nth (Z.to_nat (now.(month) - 1)) month_names ""
  ++ " " ++ zfill 2 (str_int now.(day))
  ++ ", " ++ str_int now.(year)
  ++ " at " ++ zfill 2 (str_int (if (hour12 =? 0)%Z then 12%Z else hour12))
  ++ ":" ++ zfill 2 (str_int now.(minute))
  ++ " " ++ (if (now.(hour) <? 12)%Z then "AM" else "PM").

(** A value of the formatted ratio table: a string or a raw number. *)
Inductive pyval : Type :=
| PyStr (s : string)
| PyNum (x : Q).

(** [{k: f(k, v) for k, v in items}], built by successive insertion. *)
Fixpoint dict_comprehension {V W : Type}
  (f : string -> V -> M W) (items : list (string * V)) (acc : dict W)
  : M (dict W) :=
  match items with
  | [] => ret acc
  | (k, v) :: rest =>
      w <- f k v ;;
      dict_comprehension f rest (dict_set k w acc)
  end.

Definition yes_no (b : bool) : string := if b then "Yes" else "No".

Module Report.

Record t : Type := mk {
  generated_on : string;
  age : Z;
  risk_assessment : dict string;
  score_breakdown : dict string;
  financial_snapshot : dict string;
  key_financial_ratios : dict pyval;
  financial_behavior_analysis : dict string;
  urgent_attention_required : list string;
  personalized_recommendations : list string;
  thirty_day_action_plan : list string
}.

End Report.

(** The conditional expression of the [formatted_ratios] comprehension. *)
Definition format_ratio (k : string) (v : Q) : M pyval :=
  if contains "rate" k || contains "ratio" k then
    ret (PyStr (format_pct 1 v))
  else if String.eqb k "emergency_fund_months" then
    ret (PyStr (format_f 1 v ++ " months"))
  else if contains "worth" k then
    s <- format_currency v ;;
    ret (PyStr s)
  else ret (PyNum v).

Definition get_full_report_data (now : datetime) (data : FinancialProfile)
  : M Report.t :=
  scored <- calculate_comprehensive_risk_score data ;;
  let '(risk_score, breakdown) := scored in
  risk_profile <- interpret_risk_profile risk_score ;;
  ratios <- calculate_key_ratios data ;;
  recommendations <- generate_recommendations data risk_score ratios ;;
  warnings <- generate_warnings data ratios ;;
  action_items <- _generate_action_plan data ratios risk_score ;;
  formatted_ratios <- dict_comprehension format_ratio ratios [] ;;
  let generated_on := strftime_generated_on now in
  score_breakdown <-
    dict_comprehension
      (fun factor score => ret (format_f 1 score ++ "/100")) breakdown [] ;;
  annual_income <- format_currency data.(salary) ;;
  total_assets <- format_currency data.(assets) ;;
  total_liabilities <- format_currency data.(liabilities) ;;
  net_worth <- dict_get "net_worth" ratios ;;
  net_worth <- format_currency net_worth ;;
  liquid_savings <- format_currency data.(savings) ;;
  investments <- format_currency data.(investments) ;;
  ret {|
    Report.generated_on := generated_on;
    Report.age := data.(age);
    Report.risk_assessment :=
      [ ("overall_risk_score", format_f 1 risk_score ++ "/100");
        ("risk_profile", risk_profile.(profile));
        ("capacity", risk_profile.(capacity));
        ("description", risk_profile.(description));
        ("investment_horizon", risk_profile.(investment_horizon));
        ("suggested_allocation", risk_profile.(allocation)) ];
    Report.score_breakdown := score_breakdown;
    Report.financial_snapshot :=
      [ ("annual_income", annual_income);
        ("total_assets", total_assets);
        ("total_liabilities", total_liabilities);
        ("net_worth", net_worth);
        ("liquid_savings", liquid_savings);
        ("investments", investments) ];
    Report.key_financial_ratios := formatted_ratios;
    Report.financial_behavior_analysis :=
      [ ("monthly_budgeting", yes_no data.(budget));
        ("expense_tracking", data.(expense_tracking));
        ("insurance_coverage", data.(insurance));
        ("retirement_planning", yes_no data.(retirement));
        ("investment_automation", yes_no data.(automate));
        ("credit_score", str_int data.(credit_score) ++ "/850");
        ("financial_confidence", str_int data.(confidence) ++ "/10");
        ("goal_review_habit", yes_no data.(review_goals));
        ("financial_advisor", yes_no data.(advisor)) ];
    Report.urgent_attention_required := warnings;
    Report.personalized_recommendations := recommendations;
    Report.thirty_day_action_plan := action_items
  |}.

(** The module-level instance, [analyzer = FinancialHealthAnalyzer()]. *)
Definition analyzer : FinancialHealthAnalyzer := __init__.

(** The profile of the end-to-end example. *)
Definition example_profile : FinancialProfile :=
  {| age := 28; salary := 1200000; city_index := 1.5; assets := 500000;
     liabilities := 100000; loans := 1; emi := 5000; responsibilities := 1;
     savings := 200000; credit_score := 720; investments := 50000;
     monthly_expenses := 30000; risk_tolerance := 0.6; budget := true;
     insurance := "Health"; expense_tracking := "Monthly";
     retirement := false; high_risk_percent := 20; automate := true;
     defaulted := false; advisor := false; confidence := 8;
     review_goals := true |}.

(** * Vocabulary of the specification *)

(** [returns m v]: from any state of the instance, the call [m] returns [v]
    without raising and leaves the instance as it was. *)
Definition returns {A : Type} (m : M A) (v : A) : Prop :=
  forall self, m self = (Ok v, self).

(** The unit interval, the range of a normalized factor. *)
Definition unit_interval (v : Q) : Prop := 0 <= v <= 1.

(** The weighted sum of the source, before clamping. *)
Definition weighted_sum (af ist nw db lq ch im bs rt : Q) : Q :=
  (af * 0.15 + ist * 0.20 + nw * 0.15 + (1 - db) * 0.20 + lq * 0.10
   + ch * 0.10 + im * 0.05 + bs * 0.05 + rt * 0.1) * 100.

(** The documented domain of a request: money amounts and the city index
    are non-negative, the risk tolerance is a fraction. *)
Definition valid_profile (data : FinancialProfile) : Prop :=
  0 <= data.(salary) /\ 0 <= data.(city_index) /\ 0 <= data.(assets) /\
  0 <= data.(liabilities) /\ 0 <= data.(savings) /\
  0 <= data.(investments) /\ 0 <= data.(monthly_expenses) /\
  0 <= data.(emi) /\ 0 <= data.(risk_tolerance) <= 1.

(** The clamp of the specification: [x] limited to the interval
    [[lo, hi]]. *)
Definition clamp (x lo hi : Q) : Q := Qmax lo (Qmin x hi).

(** The five bands in ascending order, by profile name. *)
Definition band_names : list string :=
  [ "Capital Preservation"; "Conservative Investor"; "Balanced Investor";
    "Growth Investor"; "Aggressive Investor" ].

(** The position of a band in [band_names]. *)
Fixpoint index_of (x : string) (l : list string) : nat :=
  match l with
  | [] => O
  | y :: l' => if String.eqb x y then O else S (index_of x l')
  end.

Definition band_rank (p : InvestorProfile) : nat :=
  index_of p.(profile) band_names.

(** The ratio table of a profile, entry by entry. *)
Definition ratio_table (data : FinancialProfile) : dict Q :=
  [ ("debt_to_income",
     if data.(salary) >? 0
     then (data.(emi) + data.(liabilities) * 0.1) / data.(salary) else 0);
    ("savings_rate",
     if data.(salary) >? 0 then data.(savings) / data.(salary) else 0);
    ("emergency_fund_months",
     if data.(monthly_expenses) >? 0
     then data.(savings) / data.(monthly_expenses) else 0);
    ("investment_rate",
     if data.(salary) >? 0 then data.(investments) / data.(salary) else 0);
    ("net_worth", data.(assets) - data.(liabilities));
    ("asset_utilization",
     if data.(assets) >? 0 then data.(investments) / data.(assets) else 0);
    ("expense_ratio",
     if data.(salary) >? 0
     then data.(monthly_expenses) * 12 / data.(salary) else 0) ].

(** A profile with no income, no assets and no expenses. *)
Definition zero_profile : FinancialProfile :=
  {| age := 40; salary := 0; city_index := 1; assets := 0;
     liabilities := 0; loans := 0; emi := 0; responsibilities := 0;
     savings := 0; credit_score := 700; investments := 0;
     monthly_expenses := 0; risk_tolerance := 0.5; budget := true;
     insurance := "Health"; expense_tracking := "Monthly";
     retirement := true; high_risk_percent := 0; automate := true;
     defaulted := false; advisor := false; confidence := 5;
     review_goals := true |}.

(** The six conditional rules of the action plan, in generation order, each
    with its predicate evaluated on the profile and on the two ratios read
    from the table. *)
Definition conditional_rules (data : FinancialProfile) (efm dti : Q)
  : list (bool * string) :=
  [ (efm <? 3,
     "Open a high-yield savings account and set up automatic transfer for emergency fund");
    (negb data.(budget),
     "Download a budgeting app and track all expenses for 30 days");
    (String.eqb data.(insurance) "None",
     "Research and compare health insurance plans, get quotes for term life insurance");
    ((data.(credit_score) <? 650)%Z,
     "Obtain free credit report, dispute any errors, and set up payment reminders");
    (negb data.(automate),
     "Set up automatic bill payments and SIP investments");
    (dti >? 0.4,
     "List all debts, consider debt consolidation options, create repayment plan") ].

(** The items of the rules that fire, in order. *)
Definition fired (rules : list (bool * string)) : list string :=
  map snd (filter fst rules).

Definition review_portfolio_action : string :=
  "Review and optimize current investment portfolio based on risk profile".

Definition schedule_review_action : string :=
  "Schedule financial goal review and create/update investment strategy".

(** A profile on which exactly five conditional rules fire: no emergency
    fund, no budget, no insurance, a credit score of 600, no automation,
    and no debt. *)
Definition five_rules_profile : FinancialProfile :=
  {| age := 40; salary := 600000; city_index := 1; assets := 100000;
     liabilities := 0; loans := 0; emi := 0; responsibilities := 0;
     savings := 0; credit_score := 600; investments := 0;
     monthly_expenses := 20000; risk_tolerance := 0.5; budget := false;
     insurance := "None"; expense_tracking := "Never";
     retirement := false; high_risk_percent := 0; automate := false;
     defaulted := false; advisor := false; confidence := 5;
     review_goals := false |}.

(** The string [format_currency] builds, case by case. *)
Definition currency_string (amount : Q) : string :=
  if amount >=? 10000000 then
    currency_symbol ++ format_f 2 (amount / 10000000) ++ " Cr"
  else if amount >=? 100000 then
    currency_symbol ++ format_f 2 (amount / 100000) ++ " L"
  else currency_symbol ++ format_comma_f0 amount.

Definition retirement_recommendation : string :=
  "üéØ Start retirement planning: Time is your biggest advantage for long-term wealth.".

Definition critical_debt_warning : string :=
  "‚ö†Ô∏è CRITICAL: Debt-to-income ratio exceeds 50% - immediate debt restructuring needed".

(** The numeral of [n / 10 ^ prec] with [prec] decimals, for a natural
    number [n]. *)
Definition decimal (prec : nat) (n : Z) : string :=
  match prec with
  | O => str_int n
  | _ => str_int (n / 10 ^ Z.of_nat prec) ++ "."
         ++ zfill prec (str_int (n mod 10 ^ Z.of_nat prec))
  end.

(** [s] shows the magnitude [m] to [prec] decimals, after a minus sign when
    [negative]: it is the numeral of a number of units of [10 ^ -prec] that
    is at most half a unit away from [m]. *)
Definition shows (prec : nat) (s : string) (negative : bool) (m : Q) : Prop :=
  exists n : Z,
    (0 <= n)%Z /\
    s = (if negative then "-" else "") ++ decimal prec n /\
    Qabs (inject_Z n / inject_Z (10 ^ Z.of_nat prec) - m)
    <= 1 / (2 * inject_Z (10 ^ Z.of_nat prec)).

(** A percentage string with one decimal for the float [v]: [v] times 100,
    in floating point, to one decimal, then the percent sign. *)
Definition one_decimal_percentage (s : string) (v : Q) : Prop :=
  exists t,
    s = t ++ "%" /\
    shows 1 t (b64 v * 100 <? 0) (Qabs (b64 (b64 v * 100))).

(** A string "X.X months" for the float [v]. *)
Definition one_decimal_months (s : string) (v : Q) : Prop :=
  exists t, s = t ++ " months" /\ shows 1 t (v <? 0) (Qabs (b64 v)).

(** ** Further vocabulary *)

(** [raises m e]: from any state of the instance, the call [m] raises [e]
    and leaves the instance as it was. *)
Definition raises {A : Type} (m : M A) (e : exn) : Prop :=
  forall self, m self = (Raise e, self).

(** The request [data] with another risk tolerance. *)
Definition with_risk_tolerance (data : FinancialProfile) (rt : Q)
  : FinancialProfile :=
  {| age := data.(age); salary := data.(salary);
     city_index := data.(city_index); assets := data.(assets);
     liabilities := data.(liabilities); loans := data.(loans);
     emi := data.(emi); responsibilities := data.(responsibilities);
     savings := data.(savings); credit_score := data.(credit_score);
     investments := data.(investments);
     monthly_expenses := data.(monthly_expenses); risk_tolerance := rt;
     budget := data.(budget); insurance := data.(insurance);
     expense_tracking := data.(expense_tracking);
     retirement := data.(retirement);
     high_risk_percent := data.(high_risk_percent);
     automate := data.(automate); defaulted := data.(defaulted);
     advisor := data.(advisor); confidence := data.(confidence);
     review_goals := data.(review_goals) |}.

(** A valid profile with every factor at its lowest: old, no income, no
    savings against expenses, nothing invested, a default on a poor credit
    score, no good habit and no appetite for risk. *)
Definition weakest_profile : FinancialProfile :=
  {| age := 60; salary := 0; city_index := 1; assets := 0;
     liabilities := 0; loans := 1; emi := 0; responsibilities := 0;
     savings := 0; credit_score := 400; investments := 0;
     monthly_expenses := 1000; risk_tolerance := 0; budget := false;
     insurance := "None"; expense_tracking := "Never";
     retirement := false; high_risk_percent := 0; automate := false;
     defaulted := true; advisor := false; confidence := 0;
     review_goals := false |}.

(** A profile outside the documented domain: a negative salary. *)
Definition negative_salary_profile : FinancialProfile :=
  {| age := 40; salary := -100000; city_index := 1; assets := 0;
     liabilities := 0; loans := 1; emi := 5000; responsibilities := 0;
     savings := 0; credit_score := 700; investments := 0;
     monthly_expenses := 1000; risk_tolerance := 0.5; budget := true;
     insurance := "Health"; expense_tracking := "Monthly";
     retirement := true; high_risk_percent := 0; automate := true;
     defaulted := false; advisor := false; confidence := 5;
     review_goals := true |}.

(** The other four warnings. *)
Definition no_emergency_fund_warning : string :=
  "‚ö†Ô∏è HIGH RISK: No emergency fund - vulnerable to financial shocks".

Definition poor_credit_warning : string :=
  "‚ö†Ô∏è URGENT: Very poor credit score - will severely limit financial options".

Definition expenses_warning : string :=
  "‚ö†Ô∏è CRITICAL: Expenses consume 90%+ of income - unsustainable lifestyle".

Definition default_with_loans_warning : string :=
  "‚ö†Ô∏è HIGH RISK: Previous defaults with current loans - monitor closely".

(** The five warning rules in generation order, each with its predicate
    evaluated on the profile and on the three ratios read from the table. *)
Definition warning_rules (data : FinancialProfile) (dti efm er : Q)
  : list (bool * string) :=
  [ (dti >? 0.5, critical_debt_warning);
    (efm <? 1, no_emergency_fund_warning);
    ((data.(credit_score) <? 500)%Z, poor_credit_warning);
    (er >? 0.9, expenses_warning);
    (data.(defaulted) && (data.(loans) >? 0)%Z,
     default_with_loans_warning) ].

(** The recommendations; three of them quote a ratio. *)
Definition emergency_fund_recommendation (efm : Q) : string :=
  "üö® Build emergency fund: You have " ++ format_f 1 efm
  ++ " months of expenses. Aim for 6-12 months.".

Definition reduce_debt_recommendation (dti : Q) : string :=
  "üí≥ Reduce debt burden: " ++ format_pct 1 dti
  ++ " debt-to-income is high. Target below 30%.".

Definition increase_savings_recommendation (sr : Q) : string :=
  "üí∞ Increase savings: " ++ format_pct 1 sr
  ++ " savings rate is low. Aim for 20%+ of income.".

Definition increase_investments_recommendation : string :=
  "üìà Increase investments: Consider systematic investment plans (SIPs) for wealth building.".

Definition insurance_recommendation : string :=
  "üõ°Ô∏è Get insurance: Health and term life insurance are essential for financial security.".

Definition credit_recommendation : string :=
  "üìä Improve credit score: Pay bills on time, reduce credit utilization, check credit report.".

Definition budget_recommendation : string :=
  "üìã Create a budget: Track income and expenses to improve financial control.".

Definition automate_recommendation : string :=
  "‚öôÔ∏è Automate finances: Set up automatic savings and bill payments.".

(** The nine recommendation rules in generation order. *)
Definition recommendation_rules
  (data : FinancialProfile) (risk_score efm dti sr ir : Q)
  : list (bool * string) :=
  [ (efm <? 6, emergency_fund_recommendation efm);
    (dti >? 0.4, reduce_debt_recommendation dti);
    (sr <? 0.2, increase_savings_recommendation sr);
    ((ir <? 0.15) && (risk_score >? 40),
     increase_investments_recommendation);
    (String.eqb data.(insurance) "None", insurance_recommendation);
    ((data.(credit_score) <? 650)%Z, credit_recommendation);
    (negb data.(budget), budget_recommendation);
    (negb data.(automate), automate_recommendation);
    ((data.(age) <? 30)%Z && negb data.(retirement),
     retirement_recommendation) ].

(** The first of [keys] that a dictionary lacks. *)
Fixpoint first_missing {V : Type} (keys : list string) (d : dict V)
  : option string :=
  match keys with
  | [] => None
  | k :: keys' =>
      if existsb (String.eqb k) (map fst d) then first_missing keys' d
      else Some k
  end.

(** The six conditional actions. *)
Definition open_savings_action : string :=
  "Open a high-yield savings account and set up automatic transfer for emergency fund".

Definition track_expenses_action : string :=
  "Download a budgeting app and track all expenses for 30 days".

Definition research_insurance_action : string :=
  "Research and compare health insurance plans, get quotes for term life insurance".

Definition credit_report_action : string :=
  "Obtain free credit report, dispute any errors, and set up payment reminders".

Definition automate_payments_action : string :=
  "Set up automatic bill payments and SIP investments".

Definition debt_consolidation_action : string :=
  "List all debts, consider debt consolidation options, create repayment plan".

(** The ratios of a profile that the rule sets read, as in [ratio_table]. *)
Definition debt_to_income_of (data : FinancialProfile) : Q :=
  if data.(salary) >? 0
  then (data.(emi) + data.(liabilities) * 0.1) / data.(salary) else 0.

Definition savings_rate_of (data : FinancialProfile) : Q :=
  if data.(salary) >? 0 then data.(savings) / data.(salary) else 0.

Definition emergency_fund_months_of (data : FinancialProfile) : Q :=
  if data.(monthly_expenses) >? 0
  then data.(savings) / data.(monthly_expenses) else 0.

Definition investment_rate_of (data : FinancialProfile) : Q :=
  if data.(salary) >? 0 then data.(investments) / data.(salary) else 0.

Definition expense_ratio_of (data : FinancialProfile) : Q :=
  if data.(salary) >? 0
  then data.(monthly_expenses) * 12 / data.(salary) else 0.

(** The eight habits that [_calculate_behavioral_score] counts. *)
Definition good_habits (data : FinancialProfile) : Prop :=
  data.(budget) = true /\
  (data.(expense_tracking) = "Monthly" \/ data.(expense_tracking) = "Daily") /\
  (data.(insurance) = "Health" \/ data.(insurance) = "Life"
   \/ data.(insurance) = "Both") /\
  data.(retirement) = true /\
  data.(automate) = true /\
  data.(defaulted) = false /\
  (7 <= data.(confidence))%Z /\
  data.(review_goals) = true.


(** ** The request handler: the checks before the coercions

    [analyze_financial_health] takes the parsed body of the request,
    [request.json].  Embedded here are its first two steps, the test
    [if not data] and the loop over [required_fields].  The coercions
    [int(...)], [float(...)], [bool(...)] and the call of the analyzer, which
    follow in the same [try] block and can still end in the response with
    status 500, are not embedded. *)

(** A parsed JSON value. *)
#[warnings="-register-all"] Inductive json : Type :=
| JNull
| JBool (b : bool)
| JInt (n : Z)
| JFloat (x : Q)
| JString (s : string)
| JArray (items : list json)
| JObject (members : list (string * json)).

(** The truth value of [data], as [not data] reads it. *)
Definition truthy (data : json) : bool :=
  match data with
  | JNull => false
  | JBool b => b
  | JInt n => negb (n =? 0)%Z
  | JFloat x => negb (x =? 0)
  | JString s => negb (String.eqb s "")
  | JArray [] => false
  | JArray (_ :: _) => true
  | JObject [] => false
  | JObject (_ :: _) => true
  end.

(** [field in data]: a key of an object, an item of an array, a substring
    of a string; [None] is the [TypeError] of the other values. *)
Definition json_contains (field : string) (data : json) : option bool :=
  match data with
  | JObject members => Some (existsb (String.eqb field) (map fst members))
  | JArray items =>
      Some (existsb (fun item => match item with
                                 | JString s => String.eqb field s
                                 | _ => false
                                 end) items)
  | JString s => Some (contains field s)
  | JNull | JBool _ | JInt _ | JFloat _ => None
  end.

Definition required_fields : list string :=
  [ "age"; "salary"; "city_index"; "assets"; "liabilities"; "loans"; "emi";
    "responsibilities"; "savings"; "credit_score"; "investments";
    "monthly_expenses"; "risk_tolerance"; "budget"; "insurance";
    "expense_tracking"; "retirement"; "high_risk_percent"; "automate";
    "defaulted"; "advisor"; "confidence"; "review_goals" ].

(** Where the two checks end: a response with status 400 and the given
    [error]; the response with status 500 of the [except] clause, after a
    [TypeError] of the membership test; or [FieldsPresent], when the loop
    ends without a response and the handler goes on to the coercions. *)
Inductive validation : Type :=
| BadRequest (error : string)
| InternalServerError
| FieldsPresent.

(** [for field in required_fields: if field not in data: return ...] *)
Fixpoint check_fields (fields : list string) (data : json) : validation :=
  match fields with
  | [] => FieldsPresent
  | field :: rest =>
      match json_contains field data with
      | None => InternalServerError
      | Some false => BadRequest ("Missing field: " ++ field)
      | Some true => check_fields rest data
      end
  end.

Definition validate_request (data : json) : validation :=
  if negb (truthy data) then BadRequest "No input data provided"
  else check_fields required_fields data.

(** A scalar: a JSON value that is neither a string nor a container. *)
Definition scalar (data : json) : bool :=
  match data with
  | JNull | JBool _ | JInt _ | JFloat _ => true
  | JString _ | JArray _ | JObject _ => false
  end.

(** * Properties *)

(** ** Reasoning about method calls *)

Lemma returns_ret {A : Type} (a : A) : returns (ret a) a.
Proof. intros self. reflexivity. Qed.

Lemma returns_bind {A B : Type} (m : M A) (k : A -> M B) (a : A) (b : B) :
  returns m a -> returns (k a) b -> returns (bind m k) b.
Proof.
  intros Hm Hk self. unfold bind. rewrite (Hm self). apply Hk.
Qed.

Lemma returns_inj {A : Type} (m : M A) (v w : A) :
  returns m v -> returns m w -> v = w.
Proof.
  intros Hv Hw. specialize (Hv __init__). specialize (Hw __init__).
  congruence.
Qed.

(** ** Boolean comparisons of rationals *)

Lemma Qltb_lt (x y : Q) : (x <? y) = true <-> x < y.
Proof.
  unfold Qltb. rewrite negb_true_iff, <- not_true_iff_false, Qle_bool_iff.
  split; [apply Qnot_le_lt | apply Qlt_not_le].
Qed.

Lemma Qltb_ge (x y : Q) : (x <? y) = false <-> y <= x.
Proof.
  unfold Qltb. rewrite negb_false_iff. apply Qle_bool_iff.
Qed.

Lemma Qleb_gt (x y : Q) : (x <=? y) = false <-> y < x.
Proof.
  rewrite <- not_true_iff_false, Qle_bool_iff.
  split; [apply Qnot_le_lt | apply Qlt_not_le].
Qed.

Lemma Qeqb_neq (x y : Q) : (x =? y) = false <-> ~ x == y.
Proof.
  rewrite <- not_true_iff_false, Qeq_bool_iff. reflexivity.
Qed.

(** Case analysis on every comparison of rationals met in a goal. *)
Ltac qcases :=
  repeat match goal with
    | |- context [Qltb ?x ?y] =>
        let E := fresh "E" in
        destruct (Qltb x y) eqn:E;
        [apply Qltb_lt in E | apply Qltb_ge in E]
    | |- context [Qle_bool ?x ?y] =>
        let E := fresh "E" in
        destruct (Qle_bool x y) eqn:E;
        [apply Qle_bool_iff in E | apply Qleb_gt in E]
    | |- context [Qeq_bool ?x ?y] =>
        let E := fresh "E" in
        destruct (Qeq_bool x y) eqn:E;
        [apply Qeq_bool_iff in E | apply Qeqb_neq in E]
    end.

Lemma pymin_spec (a b : Q) :
  (b < a /\ pymin a b = b) \/ (a <= b /\ pymin a b = a).
Proof. unfold pymin. qcases; [left | right]; split; auto. Qed.

Lemma pymax_spec (a b : Q) :
  (a < b /\ pymax a b = b) \/ (b <= a /\ pymax a b = a).
Proof. unfold pymax. qcases; [left | right]; split; auto. Qed.

Lemma pymin_le_l (a b : Q) : pymin a b <= a.
Proof. destruct (pymin_spec a b) as [[H ->] | [H ->]]; lra. Qed.

Lemma pymin_ge (a b c : Q) : c <= a -> c <= b -> c <= pymin a b.
Proof. intros. destruct (pymin_spec a b) as [[H1 ->] | [H1 ->]]; lra. Qed.

Lemma pymax_ge_l (a b : Q) : a <= pymax a b.
Proof. destruct (pymax_spec a b) as [[H ->] | [H ->]]; lra. Qed.

Lemma pymax_le (a b c : Q) : a <= c -> b <= c -> pymax a b <= c.
Proof. intros. destruct (pymax_spec a b) as [[H1 ->] | [H1 ->]]; lra. Qed.

(** ** Division *)

Lemma returns_pydiv (a b : Q) : ~ b == 0 -> returns (a // b) (a / b).
Proof.
  intros Hb self. unfold pydiv.
  apply Qeqb_neq in Hb. rewrite Hb. reflexivity.
Qed.

Lemma Qdiv_nonneg (a b : Q) : 0 <= a -> 0 < b -> 0 <= a / b.
Proof. intros Ha Hb. apply Qle_shift_div_l; lra. Qed.

(** A step of a method body: run the next call, then continue. *)
Ltac mstep lem := eapply returns_bind; [apply lem | cbv beta].
Ltac mdiv := eapply returns_bind; [apply returns_pydiv | cbv beta].

(** ** The model on concrete inputs *)

Example format_f_examples :
  format_f 1 (200000 / 30000) = "6.7" /\ format_f 2 1.125 = "1.12" /\
  format_f 1 74.625 = "74.6" /\ format_pct 1 0.0125 = "1.2%" /\
  format_comma_f0 1234567 = "1,234,567" /\ format_comma_f0 999.5 = "1,000".
Proof. repeat split; vm_compute; reflexivity. Qed.

Example b64_examples :
  b64 0.1 == 3602879701896397 # 36028797018963968 /\
  b64 (101500 / 100000) < 1.015 /\ b64 (9000 / 20000) > 0.45 /\
  b64 1.125 == 1.125 /\ b64 12500000 == 12500000.
Proof. repeat split; vm_compute; reflexivity. Qed.

Example format_rounds_the_float :
  format_f 2 (101500 / 100000) = "1.01" /\
  format_f 1 (9000 / 20000) = "0.5" /\
  format_pct 1 (100 / 200000) = "0.1%" /\
  format_pct 1 0.0025 = "0.2%".
Proof. repeat split; vm_compute; reflexivity. Qed.

Example strftime_example :
  strftime_generated_on (mkDatetime 2025 11 7 15 5 30 0)
  = "November 07, 2025 at 03:05 PM".
Proof. vm_compute. reflexivity. Qed.

Example example_score :
  exists score breakdown,
    calculate_comprehensive_risk_score example_profile analyzer
    = (Ok (score, breakdown), analyzer)
    /\ score == 74.625.
Proof. do 2 eexists. split; vm_compute; reflexivity. Qed.

Example classifier_boundaries :
  exists p80 p79 p45 p24,
    interpret_risk_profile 80 analyzer = (Ok p80, analyzer) /\
    interpret_risk_profile 79.999 analyzer = (Ok p79, analyzer) /\
    interpret_risk_profile 45 analyzer = (Ok p45, analyzer) /\
    interpret_risk_profile 24.999 analyzer = (Ok p24, analyzer) /\
    p80.(profile) = "Aggressive Investor" /\
    p79.(profile) = "Growth Investor" /\
    p45.(profile) = "Balanced Investor" /\
    p24.(profile) = "Capital Preservation".
Proof. do 4 eexists. repeat split; vm_compute; reflexivity. Qed.

Example division_by_zero_raises :
  (1 // 0) analyzer = (Raise ZeroDivisionError, analyzer).
Proof. reflexivity. Qed.

Example missing_key_raises :
  _generate_action_plan example_profile [] 50 analyzer
  = (Raise (KeyError "emergency_fund_months"), analyzer).
Proof. reflexivity. Qed.

(** ** What each normalizer returns *)

Lemma age_factor_returns (a : Z) :
  returns (_calculate_age_factor a)
    (if (a <? 25)%Z then 0.9 else if (a <? 35)%Z then 0.8
     else if (a <? 45)%Z then 0.6 else if (a <? 55)%Z then 0.4 else 0.2).
Proof.
  unfold _calculate_age_factor.
  repeat match goal with
         | |- context [(a <? ?n)%Z] => destruct (a <? n)%Z
         end; apply returns_ret.
Qed.

Lemma income_stability_returns (s c : Q) :
  returns (_calculate_income_stability s c)
    (if c =? 0 then 0.0 else pymin 1.0 (s / (c * 100000) / 10)).
Proof.
  unfold _calculate_income_stability.
  destruct (c =? 0) eqn:E; [apply returns_ret |].
  apply Qeqb_neq in E.
  mdiv; [intros H; apply E; lra |].
  mdiv; [lra |].
  apply returns_ret.
Qed.

Lemma net_worth_ratio_returns (a l s : Q) :
  returns (_calculate_net_worth_ratio a l s)
    (if s =? 0 then 0.0 else pymin 1.0 (pymax 0 ((a - l) / s / 5))).
Proof.
  unfold _calculate_net_worth_ratio.
  destruct (s =? 0) eqn:E; [apply returns_ret |].
  apply Qeqb_neq in E.
  mdiv; [exact E |].
  mdiv; [lra |].
  apply returns_ret.
Qed.

Lemma debt_burden_returns (e l s : Q) :
  returns (_calculate_debt_burden e l s)
    (if s =? 0 then 1.0 else pymin 1.0 ((e + l * 0.1) / s)).
Proof.
  unfold _calculate_debt_burden.
  destruct (s =? 0) eqn:E; [apply returns_ret |].
  apply Qeqb_neq in E.
  mdiv; [exact E |].
  apply returns_ret.
Qed.

Lemma liquidity_score_returns (sv me : Q) :
  returns (_calculate_liquidity_score sv me)
    (if me =? 0 then 0.5
     else if sv / me >=? 12 then 1.0
     else if sv / me >=? 6 then 0.8
     else if sv / me >=? 3 then 0.6
     else pymin 1.0 (sv / me / 6)).
Proof.
  unfold _calculate_liquidity_score.
  destruct (me =? 0) eqn:E; [apply returns_ret |].
  apply Qeqb_neq in E.
  mdiv; [exact E |].
  destruct (sv / me >=? 12); [apply returns_ret |].
  destruct (sv / me >=? 6); [apply returns_ret |].
  destruct (sv / me >=? 3); [apply returns_ret |].
  mdiv; [lra |].
  apply returns_ret.
Qed.

Lemma credit_health_returns (cs : Z) (d : bool) :
  returns (_calculate_credit_health cs d)
    ((if d then 0.3 else 1.0)
     * (if (cs >=? 750)%Z then 1.0 else if (cs >=? 650)%Z then 0.7
        else if (cs >=? 550)%Z then 0.4 else 0.1)).
Proof. apply returns_ret. Qed.

Lemma investment_maturity_returns (i a : Q) :
  returns (_calculate_investment_maturity i a)
    (if a =? 0 then 0.0 else pymin 1.0 (i / a)).
Proof.
  unfold _calculate_investment_maturity.
  destruct (a =? 0) eqn:E; [apply returns_ret |].
  apply Qeqb_neq in E.
  mdiv; [exact E |].
  apply returns_ret.
Qed.

Lemma behavioral_score_returns (data : FinancialProfile) :
  exists score : Z,
    (0 <= score <= 8)%Z /\
    returns (_calculate_behavioral_score data) (inject_Z score / 8).
Proof.
  unfold _calculate_behavioral_score.
  destruct (budget data), (str_in (expense_tracking data) _),
    (str_in (insurance data) _), (retirement data), (automate data),
    (negb (defaulted data)), (confidence data >=? 7)%Z, (review_goals data);
    cbv zeta;
    (eexists; split;
     [| apply returns_pydiv; intros H; discriminate H]; cbv; split; discriminate).
Qed.

Lemma pymin_one_unit (x : Q) : 0 <= x -> unit_interval (pymin 1.0 x).
Proof.
  intros Hx. split.
  - apply pymin_ge; lra.
  - pose proof (pymin_le_l 1.0 x). lra.
Qed.

Lemma age_factor_unit (a : Z) :
  exists v, returns (_calculate_age_factor a) v /\ unit_interval v.
Proof.
  eexists. split; [apply age_factor_returns |].
  unfold unit_interval.
  repeat match goal with
         | |- context [(a <? ?n)%Z] => destruct (a <? n)%Z
         end; lra.
Qed.

Lemma income_stability_unit (s c : Q) :
  0 <= s -> 0 <= c ->
  exists v, returns (_calculate_income_stability s c) v /\ unit_interval v.
Proof.
  intros Hs Hc. eexists. split; [apply income_stability_returns |].
  qcases; [unfold unit_interval; lra |].
  apply pymin_one_unit.
  apply Qdiv_nonneg; [| lra]. apply Qdiv_nonneg; lra.
Qed.

Lemma net_worth_ratio_unit (a l s : Q) :
  exists v, returns (_calculate_net_worth_ratio a l s) v /\ unit_interval v.
Proof.
  eexists. split; [apply net_worth_ratio_returns |].
  destruct (s =? 0); [unfold unit_interval; lra |].
  apply pymin_one_unit, pymax_ge_l.
Qed.

Lemma debt_burden_unit (e l s : Q) :
  0 <= e -> 0 <= l -> 0 <= s ->
  exists v, returns (_calculate_debt_burden e l s) v /\ unit_interval v.
Proof.
  intros He Hl Hs. eexists. split; [apply debt_burden_returns |].
  qcases; [unfold unit_interval; lra |].
  apply pymin_one_unit, Qdiv_nonneg; lra.
Qed.

Lemma liquidity_score_unit (sv me : Q) :
  0 <= sv -> 0 <= me ->
  exists v, returns (_calculate_liquidity_score sv me) v /\ unit_interval v.
Proof.
  intros Hs Hm. eexists. split; [apply liquidity_score_returns |].
  destruct (me =? 0) eqn:E; [unfold unit_interval; lra |].
  apply Qeqb_neq in E.
  assert (0 <= sv / me) by (apply Qdiv_nonneg; lra).
  destruct (sv / me >=? 12); [unfold unit_interval; lra |].
  destruct (sv / me >=? 6); [unfold unit_interval; lra |].
  destruct (sv / me >=? 3); [unfold unit_interval; lra |].
  apply pymin_one_unit, Qdiv_nonneg; lra.
Qed.

Lemma credit_health_unit (cs : Z) (d : bool) :
  exists v, returns (_calculate_credit_health cs d) v /\ unit_interval v.
Proof.
  eexists. split; [apply credit_health_returns |].
  unfold unit_interval.
  destruct d, (cs >=? 750)%Z, (cs >=? 650)%Z, (cs >=? 550)%Z; lra.
Qed.

Lemma investment_maturity_unit (i a : Q) :
  0 <= i -> 0 <= a ->
  exists v, returns (_calculate_investment_maturity i a) v /\ unit_interval v.
Proof.
  intros Hi Ha. eexists. split; [apply investment_maturity_returns |].
  qcases; [unfold unit_interval; lra |].
  apply pymin_one_unit, Qdiv_nonneg; lra.
Qed.

Lemma behavioral_score_unit (data : FinancialProfile) :
  exists v, returns (_calculate_behavioral_score data) v /\ unit_interval v.
Proof.
  destruct (behavioral_score_returns data) as (score & Hs & Hr).
  eexists. split; [exact Hr |].
  assert (H0 : inject_Z 0 <= inject_Z score)
    by (rewrite <- Zle_Qle; lia).
  assert (H8 : inject_Z score <= inject_Z 8)
    by (rewrite <- Zle_Qle; lia).
  change (inject_Z 0) with 0 in H0. change (inject_Z 8) with 8 in H8.
  split.
  - apply Qle_shift_div_l; lra.
  - apply Qle_shift_div_r; lra.
Qed.

(** ** The aggregate *)

Lemma risk_score_returns (data : FinancialProfile)
  (af ist nw db lq ch im bs : Q) :
  returns (_calculate_age_factor data.(age)) af ->
  returns (_calculate_income_stability data.(salary) data.(city_index)) ist ->
  returns (_calculate_net_worth_ratio
             data.(assets) data.(liabilities) data.(salary)) nw ->
  returns (_calculate_debt_burden
             data.(emi) data.(liabilities) data.(salary)) db ->
  returns (_calculate_liquidity_score
             data.(savings) data.(monthly_expenses)) lq ->
  returns (_calculate_credit_health data.(credit_score) data.(defaulted)) ch ->
  returns (_calculate_investment_maturity
             data.(investments) data.(assets)) im ->
  returns (_calculate_behavioral_score data) bs ->
  returns (calculate_comprehensive_risk_score data)
    (pymax 0 (pymin 100
       (weighted_sum af ist nw db lq ch im bs data.(risk_tolerance))),
     [ ("Age Factor", af * 100);
       ("Income Stability", ist * 100);
       ("Net Worth Ratio", nw * 100);
       ("Debt Management", (1 - db) * 100);
       ("Liquidity Position", lq * 100);
       ("Credit Health", ch * 100);
       ("Investment Maturity", im * 100);
       ("Financial Behavior", bs * 100);
       ("Risk Tolerance", data.(risk_tolerance) * 100) ]).
Proof.
  intros Haf Hist Hnw Hdb Hlq Hch Him Hbs.
  unfold calculate_comprehensive_risk_score.
  mstep Haf. mstep Hist. mstep Hnw. mstep Hdb.
  mstep Hlq. mstep Hch. mstep Him. mstep Hbs.
  cbv zeta.
  do 8 (eapply returns_bind; [intros self; reflexivity | cbv beta]).
  apply returns_ret.
Qed.

(** Every profile gets a score: no normalizer raises. *)
Lemma factors_return (data : FinancialProfile) :
  exists af ist nw db lq ch im bs : Q,
    returns (_calculate_age_factor data.(age)) af /\
    returns (_calculate_income_stability
               data.(salary) data.(city_index)) ist /\
    returns (_calculate_net_worth_ratio
               data.(assets) data.(liabilities) data.(salary)) nw /\
    returns (_calculate_debt_burden
               data.(emi) data.(liabilities) data.(salary)) db /\
    returns (_calculate_liquidity_score
               data.(savings) data.(monthly_expenses)) lq /\
    returns (_calculate_credit_health
               data.(credit_score) data.(defaulted)) ch /\
    returns (_calculate_investment_maturity
               data.(investments) data.(assets)) im /\
    returns (_calculate_behavioral_score data) bs.
Proof.
  destruct (behavioral_score_returns data) as (score & _ & Hbs).
  do 8 eexists.
  repeat apply conj;
    [ apply age_factor_returns | apply income_stability_returns
    | apply net_worth_ratio_returns | apply debt_burden_returns
    | apply liquidity_score_returns | apply credit_health_returns
    | apply investment_maturity_returns | exact Hbs ].
Qed.

Lemma clamp_range (x : Q) : 0 <= pymax 0 (pymin 100 x) <= 100.
Proof.
  split; [apply pymax_ge_l |].
  apply pymax_le; [lra | apply pymin_le_l].
Qed.

(** C1.  On a profile in the documented domain each of the eight normalizers
    returns a value in [0,1], and the aggregate score returned by
    [calculate_comprehensive_risk_score] is in [0,100]. *)
Theorem C1_factors_and_score_in_range (data : FinancialProfile) :
  valid_profile data ->
  (exists v, returns (_calculate_age_factor data.(age)) v
             /\ unit_interval v) /\
  (exists v, returns (_calculate_income_stability
                        data.(salary) data.(city_index)) v
             /\ unit_interval v) /\
  (exists v, returns (_calculate_net_worth_ratio
                        data.(assets) data.(liabilities) data.(salary)) v
             /\ unit_interval v) /\
  (exists v, returns (_calculate_debt_burden
                        data.(emi) data.(liabilities) data.(salary)) v
             /\ unit_interval v) /\
  (exists v, returns (_calculate_liquidity_score
                        data.(savings) data.(monthly_expenses)) v
             /\ unit_interval v) /\
  (exists v, returns (_calculate_credit_health
                        data.(credit_score) data.(defaulted)) v
             /\ unit_interval v) /\
  (exists v, returns (_calculate_investment_maturity
                        data.(investments) data.(assets)) v
             /\ unit_interval v) /\
  (exists v, returns (_calculate_behavioral_score data) v
             /\ unit_interval v) /\
  (exists score breakdown,
      returns (calculate_comprehensive_risk_score data) (score, breakdown)
      /\ 0 <= score <= 100).
Proof.
  intros (Hs & Hc & Ha & Hl & Hsv & Hi & Hm & He & Hr).
  repeat apply conj.
  - apply age_factor_unit.
  - apply income_stability_unit; assumption.
  - apply net_worth_ratio_unit.
  - apply debt_burden_unit; assumption.
  - apply liquidity_score_unit; assumption.
  - apply credit_health_unit.
  - apply investment_maturity_unit; assumption.
  - apply behavioral_score_unit.
  - destruct (factors_return data)
      as (af & ist & nw & db & lq & ch & im & bs & H).
    destruct H as (H1 & H2 & H3 & H4 & H5 & H6 & H7 & H8).
    do 2 eexists. split.
    + apply risk_score_returns; eassumption.
    + apply clamp_range.
Qed.

Lemma example_profile_valid : valid_profile example_profile.
Proof. unfold valid_profile, example_profile; simpl. repeat split; lra. Qed.

Lemma C1_witness :
  valid_profile example_profile /\
  exists score breakdown,
    returns (calculate_comprehensive_risk_score example_profile)
      (score, breakdown)
    /\ 0 <= score <= 100.
Proof.
  split; [exact example_profile_valid |].
  apply (C1_factors_and_score_in_range example_profile example_profile_valid).
Defined.

Lemma clamp_refines (x y : Q) :
  x == y -> pymax 0 (pymin 100 x) == clamp y 0 100.
Proof.
  intros Hxy. unfold clamp.
  destruct (pymin_spec 100 x) as [[H2 E2] | [H2 E2]]; rewrite E2;
    match goal with
    | |- pymax 0 ?m == _ =>
        destruct (pymax_spec 0 m) as [[H4 E4] | [H4 E4]]; rewrite E4
    end;
    destruct (Q.min_spec y 100) as [[H1 E1] | [H1 E1]]; rewrite E1;
    match goal with
    | |- _ == Qmax 0 ?m =>
        destruct (Q.max_spec 0 m) as [[H3 E3] | [H3 E3]]; rewrite E3
    end; lra.
Qed.

(** C2.  For every profile the aggregate score is
    [clamp((0.15*age + 0.20*income + 0.15*net_worth + 0.20*(1 - debt)
    + 0.10*liquidity + 0.10*credit + 0.05*investment + 0.05*behavior
    + 0.10*risk_tolerance) * 100, 0, 100)] over the values the eight
    normalizers return, and the breakdown lists each factor's own value
    times 100, with [(1 - debt_burden) * 100] under "Debt Management". *)
Theorem C2_weighted_score_and_breakdown (data : FinancialProfile) :
  exists af ist nw db lq ch im bs score breakdown,
    returns (_calculate_age_factor data.(age)) af /\
    returns (_calculate_income_stability
               data.(salary) data.(city_index)) ist /\
    returns (_calculate_net_worth_ratio
               data.(assets) data.(liabilities) data.(salary)) nw /\
    returns (_calculate_debt_burden
               data.(emi) data.(liabilities) data.(salary)) db /\
    returns (_calculate_liquidity_score
               data.(savings) data.(monthly_expenses)) lq /\
    returns (_calculate_credit_health
               data.(credit_score) data.(defaulted)) ch /\
    returns (_calculate_investment_maturity
               data.(investments) data.(assets)) im /\
    returns (_calculate_behavioral_score data) bs /\
    returns (calculate_comprehensive_risk_score data) (score, breakdown) /\
    score ==
      clamp ((0.15 * af + 0.20 * ist + 0.15 * nw + 0.20 * (1 - db)
              + 0.10 * lq + 0.10 * ch + 0.05 * im + 0.05 * bs
              + 0.10 * data.(risk_tolerance)) * 100) 0 100 /\
    breakdown =
      [ ("Age Factor", af * 100);
        ("Income Stability", ist * 100);
        ("Net Worth Ratio", nw * 100);
        ("Debt Management", (1 - db) * 100);
        ("Liquidity Position", lq * 100);
        ("Credit Health", ch * 100);
        ("Investment Maturity", im * 100);
        ("Financial Behavior", bs * 100);
        ("Risk Tolerance", data.(risk_tolerance) * 100) ] /\
    returns (dict_get "Debt Management" breakdown) ((1 - db) * 100).
Proof.
  destruct (factors_return data)
    as (af & ist & nw & db & lq & ch & im & bs & H).
  destruct H as (H1 & H2 & H3 & H4 & H5 & H6 & H7 & H8).
  exists af, ist, nw, db, lq, ch, im, bs.
  do 2 eexists.
  repeat apply conj; try eassumption.
  - apply risk_score_returns; eassumption.
  - apply clamp_refines. unfold weighted_sum. ring.
  - reflexivity.
  - intros self. reflexivity.
Qed.

(** ** The classifier *)

Lemma interpret_risk_profile_returns (s : Q) :
  exists p, returns (interpret_risk_profile s) p /\
    p.(profile) =
      (if s >=? 80 then "Aggressive Investor"
       else if s >=? 65 then "Growth Investor"
       else if s >=? 45 then "Balanced Investor"
       else if s >=? 25 then "Conservative Investor"
       else "Capital Preservation").
Proof.
  unfold interpret_risk_profile.
  destruct (s >=? 80); [eexists; split; [apply returns_ret | reflexivity] |].
  destruct (s >=? 65); [eexists; split; [apply returns_ret | reflexivity] |].
  destruct (s >=? 45); [eexists; split; [apply returns_ret | reflexivity] |].
  destruct (s >=? 25); eexists; (split; [apply returns_ret | reflexivity]).
Qed.

(** C3.  For a score in [0,100] the classifier returns one of five bands,
    selected by the thresholds 80, 65, 45 and 25 (each bound belongs to the
    band above it), and a higher score never gets a lower band. *)
Theorem C3_classifier_bands (s : Q) :
  0 <= s <= 100 ->
  exists p,
    returns (interpret_risk_profile s) p /\
    In p.(profile) band_names /\
    (80 <= s -> p.(profile) = "Aggressive Investor") /\
    (65 <= s < 80 -> p.(profile) = "Growth Investor") /\
    (45 <= s < 65 -> p.(profile) = "Balanced Investor") /\
    (25 <= s < 45 -> p.(profile) = "Conservative Investor") /\
    (s < 25 -> p.(profile) = "Capital Preservation") /\
    (forall s' p',
        s <= s' -> returns (interpret_risk_profile s') p' ->
        (band_rank p <= band_rank p')%nat).
Proof.
  intros _.
  destruct (interpret_risk_profile_returns s) as (p & Hp & Hname).
  exists p. split; [exact Hp |].
  split.
  { rewrite Hname.
    destruct (s >=? 80), (s >=? 65), (s >=? 45), (s >=? 25);
      simpl; tauto. }
  repeat apply conj.
  1-5: intros Hs; rewrite Hname; qcases; (reflexivity || lra).
  intros s' p' Hle Hp'.
  destruct (interpret_risk_profile_returns s') as (q & Hq & Hname').
  rewrite (returns_inj _ _ _ Hp' Hq).
  unfold band_rank. rewrite Hname, Hname'.
  qcases; try lra; vm_compute; lia.
Qed.

Lemma C3_witness :
  0 <= 80 <= 100 /\
  exists p, returns (interpret_risk_profile 80) p /\
            p.(profile) = "Aggressive Investor".
Proof.
  assert (H : 0 <= 80 <= 100) by (split; lra).
  split; [exact H |].
  destruct (C3_classifier_bands 80 H) as (p & Hp & _ & H80 & _).
  exists p. split; [exact Hp | apply H80; lra].
Defined.

(** ** The age factor *)

(** C5.  The age factor is 0.9 below 25, 0.8 from 25 to 34, 0.6 from 35 to
    44, 0.4 from 45 to 54 and 0.2 from 55 on; hence an older age never gets
    a larger factor. *)
Theorem C5_age_factor_step_function (a1 a2 : Z) :
  (a1 <= a2)%Z ->
  exists v1 v2,
    returns (_calculate_age_factor a1) v1 /\
    returns (_calculate_age_factor a2) v2 /\
    ((a1 < 25)%Z -> v1 = 0.9) /\
    ((25 <= a1 < 35)%Z -> v1 = 0.8) /\
    ((35 <= a1 < 45)%Z -> v1 = 0.6) /\
    ((45 <= a1 < 55)%Z -> v1 = 0.4) /\
    ((55 <= a1)%Z -> v1 = 0.2) /\
    v2 <= v1.
Proof.
  intros Hle.
  do 2 eexists.
  split; [apply age_factor_returns |].
  split; [apply age_factor_returns |].
  repeat apply conj.
  1-5: intros H;
    repeat match goal with
      | |- context [(?a <? ?n)%Z] => destruct (Z.ltb_spec a n)
      end; (reflexivity || lia).
  repeat match goal with
    | |- context [(?a <? ?n)%Z] => destruct (Z.ltb_spec a n)
    end; (lra || lia).
Qed.

Lemma C5_witness :
  (30 <= 50)%Z /\
  exists v1 v2,
    returns (_calculate_age_factor 30) v1 /\
    returns (_calculate_age_factor 50) v2 /\
    v1 = 0.8 /\ v2 <= v1.
Proof.
  assert (H : (30 <= 50)%Z) by lia.
  split; [exact H |].
  destruct (C5_age_factor_step_function 30 50 H)
    as (v1 & v2 & H1 & H2 & _ & H25 & _ & _ & _ & Hmono).
  exists v1, v2. repeat apply conj; try assumption.
  apply H25. lia.
Defined.

(** ** The ratio engine *)

Lemma Qgtb_nonzero (s : Q) : (s >? 0) = true -> ~ s == 0.
Proof. intros H. apply Qltb_lt in H. lra. Qed.

Lemma returns_guarded_div (c : bool) (a b d : Q) :
  (c = true -> ~ b == 0) ->
  returns (if c then a // b else ret d) (if c then a / b else d).
Proof.
  intros H. destruct c; [apply returns_pydiv; auto | apply returns_ret].
Qed.

Lemma key_ratios_returns (data : FinancialProfile) :
  returns (calculate_key_ratios data) (ratio_table data).
Proof.
  unfold calculate_key_ratios.
  repeat (eapply returns_bind;
          [apply returns_guarded_div, Qgtb_nonzero | cbv beta]).
  apply returns_ret.
Qed.

(** Reading an entry of an association list given explicitly. *)
Ltac lookup := intros ?self; reflexivity.

(** C4.  A zero denominator is a defined input.  With salary 0 the income
    stability and the net worth ratio are 0, the debt burden is 1 and the
    four salary ratios are 0; with assets 0 the investment maturity and the
    asset utilization are 0; with monthly expenses 0 the liquidity score is
    0.5 and the emergency fund months are 0.  None of these computations
    raises. *)
Theorem C4_zero_denominators (data : FinancialProfile) :
  exists ratios,
    returns (calculate_key_ratios data) ratios /\
    (data.(salary) == 0 ->
       (exists v, returns (_calculate_income_stability
                             data.(salary) data.(city_index)) v /\ v == 0) /\
       (exists v, returns (_calculate_net_worth_ratio
                             data.(assets) data.(liabilities) data.(salary)) v
                  /\ v == 0) /\
       (exists v, returns (_calculate_debt_burden
                             data.(emi) data.(liabilities) data.(salary)) v
                  /\ v == 1) /\
       (exists v, returns (dict_get "debt_to_income" ratios) v /\ v == 0) /\
       (exists v, returns (dict_get "savings_rate" ratios) v /\ v == 0) /\
       (exists v, returns (dict_get "investment_rate" ratios) v /\ v == 0) /\
       (exists v, returns (dict_get "expense_ratio" ratios) v /\ v == 0)) /\
    (data.(assets) == 0 ->
       (exists v, returns (_calculate_investment_maturity
                             data.(investments) data.(assets)) v /\ v == 0) /\
       (exists v, returns (dict_get "asset_utilization" ratios) v
                  /\ v == 0)) /\
    (data.(monthly_expenses) == 0 ->
       (exists v, returns (_calculate_liquidity_score
                             data.(savings) data.(monthly_expenses)) v
                  /\ v == 0.5) /\
       (exists v, returns (dict_get "emergency_fund_months" ratios) v
                  /\ v == 0)).
Proof.
  exists (ratio_table data).
  split; [apply key_ratios_returns |].
  repeat apply conj.
  - intros Hs.
    assert (Hgt : (data.(salary) >? 0) = false)
      by (apply Qltb_ge; lra).
    assert (Heq : (data.(salary) =? 0) = true)
      by (apply Qeq_bool_iff; exact Hs).
    repeat apply conj.
    + eexists. split; [apply income_stability_returns |].
      destruct (city_index data =? 0); [reflexivity |].
      destruct (pymin_spec 1.0 (salary data / (city_index data * 100000) / 10))
        as [[H ->] | [H ->]].
      * rewrite Hs. unfold Qdiv. ring.
      * exfalso. rewrite Hs in H.
        assert (H0 : 0 / (city_index data * 100000) / 10 == 0)
          by (unfold Qdiv; ring).
        rewrite H0 in H. lra.
    + eexists. split; [apply net_worth_ratio_returns |].
      rewrite Heq. reflexivity.
    + eexists. split; [apply debt_burden_returns |].
      rewrite Heq. reflexivity.
    + eexists. split; [unfold ratio_table; lookup |].
      cbv beta. rewrite Hgt. reflexivity.
    + eexists. split; [unfold ratio_table; lookup |].
      cbv beta. rewrite Hgt. reflexivity.
    + eexists. split; [unfold ratio_table; lookup |].
      cbv beta. rewrite Hgt. reflexivity.
    + eexists. split; [unfold ratio_table; lookup |].
      cbv beta. rewrite Hgt. reflexivity.
  - intros Ha.
    assert (Hgt : (data.(assets) >? 0) = false)
      by (apply Qltb_ge; lra).
    assert (Heq : (data.(assets) =? 0) = true)
      by (apply Qeq_bool_iff; exact Ha).
    split.
    + eexists. split; [apply investment_maturity_returns |].
      rewrite Heq. reflexivity.
    + eexists. split; [unfold ratio_table; lookup |].
      cbv beta. rewrite Hgt. reflexivity.
  - intros Hm.
    assert (Hgt : (data.(monthly_expenses) >? 0) = false)
      by (apply Qltb_ge; lra).
    assert (Heq : (data.(monthly_expenses) =? 0) = true)
      by (apply Qeq_bool_iff; exact Hm).
    split.
    + eexists. split; [apply liquidity_score_returns |].
      rewrite Heq. reflexivity.
    + eexists. split; [unfold ratio_table; lookup |].
      cbv beta. rewrite Hgt. reflexivity.
Qed.

Lemma C4_witness :
  zero_profile.(salary) == 0 /\ zero_profile.(assets) == 0 /\
  zero_profile.(monthly_expenses) == 0 /\
  exists ratios,
    returns (calculate_key_ratios zero_profile) ratios /\
    (exists v, returns (dict_get "debt_to_income" ratios) v /\ v == 0) /\
    (exists v, returns (dict_get "asset_utilization" ratios) v /\ v == 0) /\
    (exists v, returns (dict_get "emergency_fund_months" ratios) v
               /\ v == 0).
Proof.
  assert (Hs : zero_profile.(salary) == 0) by reflexivity.
  assert (Ha : zero_profile.(assets) == 0) by reflexivity.
  assert (Hm : zero_profile.(monthly_expenses) == 0) by reflexivity.
  repeat (split; [assumption |]).
  destruct (C4_zero_denominators zero_profile)
    as (ratios & Hr & Hsal & Hast & Hexp).
  exists ratios. split; [exact Hr |].
  destruct (Hsal Hs) as (_ & _ & _ & Hdti & _).
  destruct (Hast Ha) as (_ & Hau).
  destruct (Hexp Hm) as (_ & Hefm).
  repeat split; assumption.
Defined.

(** ** The action plan *)

Lemma action_plan_returns
  (data : FinancialProfile) (ratios : dict Q) (risk_score efm dti : Q) :
  returns (dict_get "emergency_fund_months" ratios) efm ->
  returns (dict_get "debt_to_income" ratios) dti ->
  returns (_generate_action_plan data ratios risk_score)
    (firstn 6 (fired (conditional_rules data efm dti)
               ++ [review_portfolio_action; schedule_review_action])).
Proof.
  intros Hefm Hdti.
  unfold _generate_action_plan, conditional_rules. cbv zeta.
  mstep Hefm. mstep Hdti.
  destruct (efm <? 3), (negb (budget data)),
    (String.eqb (insurance data) "None"), (credit_score data <? 650)%Z,
    (negb (automate data)), (dti >? 0.4);
    apply returns_ret.
Qed.

(** Membership in a list of strings, decided by comparison. *)
Lemma In_existsb (x : string) (l : list string) :
  In x l <-> existsb (String.eqb x) l = true.
Proof.
  rewrite existsb_exists. split.
  - intros H. exists x. split; [exact H | apply String.eqb_refl].
  - intros (y & Hy & Heq). apply String.eqb_eq in Heq. subst. exact Hy.
Qed.

Lemma not_In_existsb (x : string) (l : list string) :
  existsb (String.eqb x) l = false -> ~ In x l.
Proof. intros H Hin. apply In_existsb in Hin. congruence. Qed.

(** C6 (as the code has it).  The action plan is the first six items of:
    the items of the conditional rules that fire, in the fixed order, then
    the two unconditional items.  Its length is at most 6.  With five or six
    conditional items the last unconditional item is dropped; the first
    unconditional item is dropped only with six conditional items and is
    the sixth item of the plan with five; with at most four conditional
    items both unconditional items are in the plan. *)
Theorem C6_action_plan_order_and_cap
  (data : FinancialProfile) (ratios : dict Q) (risk_score efm dti : Q) :
  returns (dict_get "emergency_fund_months" ratios) efm ->
  returns (dict_get "debt_to_income" ratios) dti ->
  exists plan,
    returns (_generate_action_plan data ratios risk_score) plan /\
    plan = firstn 6 (fired (conditional_rules data efm dti)
                     ++ [review_portfolio_action; schedule_review_action]) /\
    (List.length plan <= 6)%nat /\
    ((5 <= List.length (fired (conditional_rules data efm dti)))%nat ->
       ~ In schedule_review_action plan) /\
    (List.length (fired (conditional_rules data efm dti)) = 6%nat ->
       ~ In review_portfolio_action plan) /\
    (List.length (fired (conditional_rules data efm dti)) = 5%nat ->
       nth_error plan 5 = Some review_portfolio_action) /\
    ((List.length (fired (conditional_rules data efm dti)) <= 4)%nat ->
       In review_portfolio_action plan /\ In schedule_review_action plan).
Proof.
  intros Hefm Hdti.
  eexists. split; [apply action_plan_returns; eassumption |].
  split; [reflexivity |].
  split; [apply firstn_le_length |].
  unfold conditional_rules, fired.
  destruct (efm <? 3), (negb (budget data)),
    (String.eqb (insurance data) "None"), (credit_score data <? 650)%Z,
    (negb (automate data)), (dti >? 0.4);
    cbn [filter fst snd map List.length app firstn nth_error];
    (repeat apply conj; intros Hlen;
     try (exfalso; lia); try reflexivity;
     try (apply not_In_existsb; vm_compute; reflexivity);
     try (split; apply In_existsb; vm_compute; reflexivity)).
Qed.

(** C6 (as stated) fails: five conditional rules fire on
    [five_rules_profile], and the plan still ends with the first
    unconditional item. *)
Lemma C6_counterexample_five_rules :
  exists ratios efm dti,
    returns (calculate_key_ratios five_rules_profile) ratios /\
    returns (dict_get "emergency_fund_months" ratios) efm /\
    returns (dict_get "debt_to_income" ratios) dti /\
    List.length (fired (conditional_rules five_rules_profile efm dti)) = 5%nat /\
    returns (_generate_action_plan five_rules_profile ratios 0)
      [ "Open a high-yield savings account and set up automatic transfer for emergency fund";
        "Download a budgeting app and track all expenses for 30 days";
        "Research and compare health insurance plans, get quotes for term life insurance";
        "Obtain free credit report, dispute any errors, and set up payment reminders";
        "Set up automatic bill payments and SIP investments";
        "Review and optimize current investment portfolio based on risk profile" ].
Proof.
  exists (ratio_table five_rules_profile).
  do 2 eexists.
  split; [apply key_ratios_returns |].
  split; [unfold ratio_table; lookup |].
  split; [unfold ratio_table; lookup |].
  split; [vm_compute; reflexivity |].
  intros self. vm_compute. reflexivity.
Qed.

Lemma C6_witness :
  exists efm dti plan,
    returns (dict_get "emergency_fund_months"
               (ratio_table example_profile)) efm /\
    returns (dict_get "debt_to_income" (ratio_table example_profile)) dti /\
    returns (_generate_action_plan
               example_profile (ratio_table example_profile) 0) plan /\
    (List.length plan <= 6)%nat /\
    In review_portfolio_action plan /\ In schedule_review_action plan.
Proof.
  assert (Hefm : returns (dict_get "emergency_fund_months"
                            (ratio_table example_profile))
                   (200000 / 30000))
    by (intros self; reflexivity).
  assert (Hdti : returns (dict_get "debt_to_income"
                            (ratio_table example_profile))
                   ((5000 + 100000 * 0.1) / 1200000))
    by (intros self; reflexivity).
  destruct (C6_action_plan_order_and_cap
              example_profile (ratio_table example_profile) 0 _ _ Hefm Hdti)
    as (plan & Hplan & _ & Hlen & _ & _ & _ & Hfew).
  exists (200000 / 30000), ((5000 + 100000 * 0.1) / 1200000), plan.
  repeat (split; [assumption |]).
  apply Hfew. vm_compute. lia.
Defined.

(** ** Currency *)

Lemma format_currency_returns (amount : Q) :
  returns (format_currency amount) (currency_string amount).
Proof.
  unfold format_currency, currency_string.
  destruct (amount >=? 10000000).
  - mdiv; [lra | apply returns_ret].
  - destruct (amount >=? 100000).
    + mdiv; [lra | apply returns_ret].
    + apply returns_ret.
Qed.

(** The rounding of the format specifications is to a nearest integer. *)
Lemma round_half_even_close (x : Q) :
  Qabs (inject_Z (round_half_even x) - x) <= 1 # 2.
Proof.
  pose proof (Qfloor_le x) as Hlo.
  pose proof (Qlt_floor x) as Hhi.
  rewrite inject_Z_plus in Hhi. change (inject_Z 1) with 1 in Hhi.
  unfold round_half_even. cbv zeta.
  apply Qabs_Qle_condition.
  qcases; try destruct (Z.even (Qfloor x));
    rewrite ?inject_Z_plus; change (inject_Z 1) with 1; split; lra.
Qed.

(** ** Rounding *)

Lemma round_half_even_nonneg (x : Q) : 0 <= x -> (0 <= round_half_even x)%Z.
Proof.
  intros Hx.
  assert (Hf : (0 <= Qfloor x)%Z).
  { change 0%Z with (Qfloor 0). apply Qfloor_resp_le. exact Hx. }
  unfold round_half_even. cbv zeta.
  destruct (_ <? _); [exact Hf |].
  destruct (_ >? _); [lia |].
  destruct (Z.even _); lia.
Qed.

Lemma pow2_pos (k : Z) : 0 < 2 ^ k.
Proof. apply Qpower_0_lt. reflexivity. Qed.

Lemma b64_nonneg (x : Q) : 0 <= x -> 0 <= b64 x.
Proof.
  intros Hx. unfold b64.
  destruct (x =? 0); [apply Qle_refl |]. cbv zeta.
  set (ulp := 2 ^ _).
  assert (Hulp : 0 < ulp) by apply pow2_pos.
  apply Qmult_le_0_compat; [| apply Qlt_le_weak; exact Hulp].
  change 0 with (inject_Z 0). rewrite <- Zle_Qle.
  apply round_half_even_nonneg, Qle_shift_div_l; [exact Hulp |].
  rewrite Qmult_0_l. exact Hx.
Qed.

Lemma pow10_pos (prec : nat) : 0 < inject_Z (10 ^ Z.of_nat prec).
Proof.
  change 0 with (inject_Z 0). rewrite <- Zlt_Qlt.
  apply Z.pow_pos_nonneg; lia.
Qed.

(** What [format_f] prints shows the binary64 number it is given. *)
Lemma format_f_shows (prec : nat) (x : Q) :
  shows prec (format_f prec x) (x <? 0) (Qabs (b64 x)).
Proof.
  unfold shows, format_f. cbv zeta.
  set (scale := (10 ^ Z.of_nat prec)%Z).
  set (n := round_half_even (Qabs (b64 x) * inject_Z scale)).
  assert (Hscale : 0 < inject_Z scale) by apply pow10_pos.
  exists n. split; [| split].
  - apply round_half_even_nonneg, Qmult_le_0_compat;
      [apply Qabs_nonneg | apply Qlt_le_weak; exact Hscale].
  - unfold decimal. fold scale. destruct prec; reflexivity.
  - pose proof (round_half_even_close (Qabs (b64 x) * inject_Z scale)) as Hc.
    fold n in Hc.
    setoid_replace (inject_Z n / inject_Z scale - Qabs (b64 x))
      with ((inject_Z n - Qabs (b64 x) * inject_Z scale) / inject_Z scale)
      by (field; lra).
    unfold Qdiv at 1. rewrite Qabs_Qmult.
    rewrite (Qabs_pos (/ inject_Z scale))
      by (apply Qlt_le_weak, Qinv_lt_0_compat; exact Hscale).
    setoid_replace (1 / (2 * inject_Z scale))
      with ((1 # 2) * / inject_Z scale) by (field; lra).
    apply Qmult_le_compat_r;
      [exact Hc | apply Qlt_le_weak, Qinv_lt_0_compat; exact Hscale].
Qed.

Lemma pow2_inject (a : Z) : (0 <= a)%Z -> inject_Z (2 ^ a) == 2 ^ a.
Proof. intros Ha. apply (Zpower_Qpower 2 a Ha). Qed.

Lemma pow2_succ (k : Z) : 2 ^ (k + 1) == 2 * 2 ^ k.
Proof.
  rewrite Qpower_plus by (intros H; discriminate H).
  change (2 ^ 1) with 2. ring.
Qed.

(** [ilog2] is the binary exponent. *)
Lemma ilog2_spec (x : Q) :
  0 < x -> 2 ^ ilog2 x <= x /\ x < 2 ^ (ilog2 x + 1).
Proof.
  intros Hx. unfold ilog2. cbv zeta.
  destruct x as [n d]. cbn [Qnum Qden].
  assert (Hn : (0 < n)%Z).
  { unfold Qlt in Hx. cbn in Hx. lia. }
  destruct (Z.log2_spec n Hn) as [Hn1 Hn2].
  destruct (Z.log2_spec (Zpos d) (Pos2Z.is_pos d)) as [Hd1 Hd2].
  set (a := Z.log2 n) in *. set (b := Z.log2 (Zpos d)) in *.
  assert (Ha : (0 <= a)%Z) by apply Z.log2_nonneg.
  assert (Hb : (0 <= b)%Z) by apply Z.log2_nonneg.
  assert (Hq : n # d == inject_Z n / inject_Z (Zpos d))
    by apply Qmake_Qdiv.
  assert (Hdpos : 0 < inject_Z (Zpos d)) by reflexivity.
  assert (Qn1 : 2 ^ a <= inject_Z n)
    by (rewrite <- pow2_inject by exact Ha; rewrite <- Zle_Qle; exact Hn1).
  assert (Qn2 : inject_Z n < 2 * 2 ^ a).
  { rewrite <- pow2_succ, <- pow2_inject by lia.
    rewrite <- Zlt_Qlt. unfold Z.succ in Hn2. exact Hn2. }
  assert (Qd1 : 2 ^ b <= inject_Z (Zpos d))
    by (rewrite <- pow2_inject by exact Hb; rewrite <- Zle_Qle; exact Hd1).
  assert (Qd2 : inject_Z (Zpos d) < 2 * 2 ^ b).
  { rewrite <- pow2_succ, <- pow2_inject by lia.
    rewrite <- Zlt_Qlt. unfold Z.succ in Hd2. exact Hd2. }
  assert (Pa : 0 < 2 ^ a) by apply pow2_pos.
  assert (Pb : 0 < 2 ^ b) by apply pow2_pos.
  assert (Hk : 2 ^ (a - b) == 2 ^ a / 2 ^ b)
    by (apply Qpower_minus; intros H; discriminate H).
  destruct (2 ^ (a - b) <=? n # d) eqn:E.
  - apply Qle_bool_iff in E. split; [exact E |].
    rewrite pow2_succ, Hk, Hq.
    apply Qlt_shift_div_r; [exact Hdpos |].
    apply Qlt_le_trans with (2 * 2 ^ a); [exact Qn2 |].
    setoid_replace (2 * (2 ^ a / 2 ^ b) * inject_Z (Zpos d))
      with (2 * 2 ^ a * (inject_Z (Zpos d) / 2 ^ b)) by (field; lra).
    assert (1 <= inject_Z (Zpos d) / 2 ^ b)
      by (apply Qle_shift_div_l; lra).
    setoid_replace (2 * 2 ^ a) with (2 * 2 ^ a * 1) at 1 by ring.
    apply Qmult_le_l; lra.
  - apply Qleb_gt in E. split.
    + assert (Hk1 : 2 ^ (a - b - 1) == 2 ^ a / (2 * 2 ^ b)).
      { setoid_replace (2 ^ a / (2 * 2 ^ b)) with (2 ^ (a - b) / 2)
          by (rewrite Hk; field; lra).
        apply Qmult_inj_r with (z := 2); [lra |].
        setoid_replace (2 ^ (a - b) / 2 * 2) with (2 ^ (a - b))
          by (field; lra).
        rewrite Qmult_comm, <- pow2_succ.
        replace (a - b - 1 + 1)%Z with (a - b)%Z by lia. reflexivity. }
      rewrite Hk1, Hq.
      apply Qle_shift_div_l; [exact Hdpos |].
      apply Qle_trans with (2 ^ a); [| exact Qn1].
      setoid_replace (2 ^ a / (2 * 2 ^ b) * inject_Z (Zpos d))
        with (2 ^ a * (inject_Z (Zpos d) / (2 * 2 ^ b))) by (field; lra).
      assert (inject_Z (Zpos d) / (2 * 2 ^ b) <= 1)
        by (apply Qle_shift_div_r; lra).
      setoid_replace (2 ^ a) with (2 ^ a * 1) at 2 by ring.
      apply Qmult_le_l; lra.
    + replace (a - b - 1 + 1)%Z with (a - b)%Z by lia. exact E.
Qed.

(** In the range of the normal numbers the rounding to binary64 moves a
    number by at most [2 ^ -53] of its magnitude. *)
Lemma b64_close (x : Q) :
  2 ^ (-1022) <= Qabs x ->
  Qabs (b64 x - x) <= 2 ^ (-53) * Qabs x.
Proof.
  intros Hx.
  assert (Hpos : 0 < Qabs x).
  { apply Qlt_le_trans with (2 ^ (-1022)); [apply pow2_pos | exact Hx]. }
  unfold b64.
  destruct (x =? 0) eqn:E0.
  { apply Qeq_bool_iff in E0. rewrite E0 in Hpos. discriminate Hpos. }
  cbv zeta.
  destruct (ilog2_spec (Qabs x) Hpos) as [Hlo Hhi].
  set (il := ilog2 (Qabs x)) in *.
  assert (Hil : (-1022 <= il)%Z).
  { assert (H : 2 ^ (-1022) < 2 ^ (il + 1))
      by (apply Qle_lt_trans with (Qabs x); assumption).
    apply Qpower_lt_compat_l_inv in H; [lia | reflexivity]. }
  rewrite Z.max_l by exact Hil.
  set (ulp := 2 ^ (il - 52)).
  assert (Hulp : 0 < ulp) by apply pow2_pos.
  pose proof (round_half_even_close (x / ulp)) as Hc.
  set (m := round_half_even (x / ulp)) in *.
  setoid_replace (inject_Z m * ulp - x) with ((inject_Z m - x / ulp) * ulp)
    by (field; lra).
  rewrite Qabs_Qmult, (Qabs_pos ulp) by lra.
  apply Qle_trans with ((1 # 2) * ulp);
    [apply Qmult_le_compat_r; lra |].
  assert (Hu : (1 # 2) * ulp == 2 ^ (-53) * 2 ^ il).
  { unfold ulp.
    replace (il - 52)%Z with (-53 + il + 1)%Z by lia.
    rewrite pow2_succ, Qpower_plus by (intros H; discriminate H).
    field. }
  rewrite Hu. apply Qmult_le_l; [apply pow2_pos | exact Hlo].
Qed.

Lemma shows_nonneg (prec : nat) (x : Q) :
  0 <= x -> shows prec (format_f prec x) false (b64 x).
Proof.
  intros Hx.
  destruct (format_f_shows prec x) as (n & Hn & Hs & Hc).
  exists n. split; [exact Hn |]. split.
  - rewrite Hs. apply Qltb_ge in Hx. rewrite Hx. reflexivity.
  - rewrite (Qabs_pos (b64 x)) in Hc by (apply b64_nonneg; exact Hx).
    exact Hc.
Qed.

Lemma b64_close_above_one (x : Q) :
  1 <= x -> Qabs (b64 x - x) <= 2 ^ (-53) * x.
Proof.
  intros Hx.
  rewrite <- (Qabs_pos x) at 3 by lra.
  apply b64_close. rewrite Qabs_pos by lra.
  apply Qle_trans with 1; [| exact Hx].
  apply Qlt_le_weak. reflexivity.
Qed.

(** C9.  For a non-negative amount [format_currency] returns the currency
    symbol followed by: from 10,000,000 on, the amount over 10,000,000 (a
    binary64 quotient) to two decimals and " Cr"; from 100,000 on, the
    amount over 100,000 to two decimals and " L"; otherwise the nearest
    integer, comma-grouped, with no suffix.  So 12,500,000 gives "1.25 Cr",
    250,000 gives "2.50 L" and 5,000 gives "5,000". *)
Theorem C9_format_currency (amount : Q) :
  0 <= amount ->
  (exists s,
      returns (format_currency amount) s /\
      (10000000 <= amount ->
         exists t,
           s = currency_symbol ++ t ++ " Cr" /\
           shows 2 t false (b64 (amount / 10000000)) /\
           Qabs (b64 (amount / 10000000) - amount / 10000000)
           <= 2 ^ (-53) * (amount / 10000000)) /\
      (100000 <= amount < 10000000 ->
         exists t,
           s = currency_symbol ++ t ++ " L" /\
           shows 2 t false (b64 (amount / 100000)) /\
           Qabs (b64 (amount / 100000) - amount / 100000)
           <= 2 ^ (-53) * (amount / 100000)) /\
      (amount < 100000 ->
         exists n : Z,
           (0 <= n)%Z /\
           s = currency_symbol ++ group_thousands (str_int n) /\
           Qabs (inject_Z n - b64 amount) <= 1 # 2)) /\
  returns (format_currency 12500000) (currency_symbol ++ "1.25 Cr") /\
  returns (format_currency 250000) (currency_symbol ++ "2.50 L") /\
  returns (format_currency 5000) (currency_symbol ++ "5,000") /\
  returns (format_currency 101500) (currency_symbol ++ "1.01 L").
Proof.
  intros Hpos. split.
  - exists (currency_string amount).
    split; [apply format_currency_returns |].
    unfold currency_string.
    split; [| split].
    + intros H.
      assert (E : (amount >=? 10000000) = true)
        by (apply Qle_bool_iff; exact H).
      rewrite E.
      assert (Hq : 1 <= amount / 10000000)
        by (apply Qle_shift_div_l; lra).
      eexists. split; [reflexivity |].
      split; [apply shows_nonneg; lra | apply b64_close_above_one; exact Hq].
    + intros [H1 H2].
      assert (E1 : (amount >=? 10000000) = false)
        by (apply Qleb_gt; exact H2).
      assert (E2 : (amount >=? 100000) = true)
        by (apply Qle_bool_iff; exact H1).
      rewrite E1, E2.
      assert (Hq : 1 <= amount / 100000)
        by (apply Qle_shift_div_l; lra).
      eexists. split; [reflexivity |].
      split; [apply shows_nonneg; lra | apply b64_close_above_one; exact Hq].
    + intros H.
      assert (E1 : (amount >=? 10000000) = false)
        by (apply Qleb_gt; lra).
      assert (E2 : (amount >=? 100000) = false)
        by (apply Qleb_gt; exact H).
      rewrite E1, E2.
      exists (round_half_even (Qabs (b64 amount))).
      split; [apply round_half_even_nonneg, Qabs_nonneg |].
      split.
      * unfold format_comma_f0.
        apply Qltb_ge in Hpos. rewrite Hpos. reflexivity.
      * pose proof (round_half_even_close (Qabs (b64 amount))) as Hc.
        rewrite (Qabs_pos (b64 amount)) in Hc at 2
          by (apply b64_nonneg; exact Hpos).
        exact Hc.
  - repeat apply conj; intros self; vm_compute; reflexivity.
Qed.

Lemma C9_witness :
  0 <= 12500000 /\
  exists s t,
    returns (format_currency 12500000) s /\
    s = currency_symbol ++ t ++ " Cr" /\
    shows 2 t false (b64 (12500000 / 10000000)).
Proof.
  assert (H : 0 <= 12500000) by lra.
  split; [exact H |].
  destruct (C9_format_currency 12500000 H) as ((s & Hs & Hcr & _) & _).
  destruct (Hcr ltac:(lra)) as (t & Ht & Hshows & _).
  exists s, t. repeat split; assumption.
Defined.

(** ** The rule engine on the ratio table of a profile *)

Lemma recommendations_return (data : FinancialProfile) (score : Q) :
  exists recs,
    returns (generate_recommendations data score (ratio_table data)) recs.
Proof.
  eexists. unfold generate_recommendations.
  do 4 (eapply returns_bind; [unfold ratio_table; lookup | cbv beta]).
  apply returns_ret.
Qed.

Lemma warnings_return (data : FinancialProfile) :
  exists warns, returns (generate_warnings data (ratio_table data)) warns.
Proof.
  eexists. unfold generate_warnings.
  do 3 (eapply returns_bind; [unfold ratio_table; lookup | cbv beta]).
  apply returns_ret.
Qed.

Lemma action_plan_return (data : FinancialProfile) (score : Q) :
  exists plan,
    returns (_generate_action_plan data (ratio_table data) score) plan.
Proof.
  eexists. apply action_plan_returns; unfold ratio_table; lookup.
Qed.

(** ** The formatted ratio table *)

Lemma format_ratio_worth (v : Q) :
  returns (format_ratio "net_worth" v) (PyStr (currency_string v)).
Proof.
  unfold format_ratio.
  change (contains "rate" "net_worth" || contains "ratio" "net_worth")
    with false.
  change (String.eqb "net_worth" "emergency_fund_months") with false.
  change (contains "worth" "net_worth") with true.
  cbv iota.
  mstep format_currency_returns.
  apply returns_ret.
Qed.

Lemma formatted_ratios_returns (v1 v2 v3 v4 v5 v6 v7 : Q) :
  returns
    (dict_comprehension format_ratio
       [ ("debt_to_income", v1); ("savings_rate", v2);
         ("emergency_fund_months", v3); ("investment_rate", v4);
         ("net_worth", v5); ("asset_utilization", v6);
         ("expense_ratio", v7) ] [])
    [ ("debt_to_income", PyNum v1);
      ("savings_rate", PyStr (format_pct 1 v2));
      ("emergency_fund_months", PyStr (format_f 1 v3 ++ " months"));
      ("investment_rate", PyStr (format_pct 1 v4));
      ("net_worth", PyStr (currency_string v5));
      ("asset_utilization", PyNum v6);
      ("expense_ratio", PyStr (format_pct 1 v7)) ].
Proof.
  cbn [dict_comprehension].
  do 4 (eapply returns_bind; [lookup | cbv beta]).
  mstep format_ratio_worth.
  do 2 (eapply returns_bind; [lookup | cbv beta]).
  apply returns_ret.
Qed.

(** ** The whole pipeline *)

(** Every request gets a report, whatever the state of the instance; the
    lists of the report are those of the three rule sets run on the ratio
    table and on the aggregate score. *)
Lemma full_report_returns (now : datetime) (data : FinancialProfile) :
  exists score breakdown report,
    returns (calculate_comprehensive_risk_score data) (score, breakdown) /\
    returns (get_full_report_data now data) report /\
    returns (generate_recommendations data score (ratio_table data))
      report.(Report.personalized_recommendations) /\
    returns (generate_warnings data (ratio_table data))
      report.(Report.urgent_attention_required) /\
    returns (_generate_action_plan data (ratio_table data) score)
      report.(Report.thirty_day_action_plan) /\
    returns (dict_comprehension format_ratio (ratio_table data) [])
      report.(Report.key_financial_ratios) /\
    report.(Report.generated_on) = strftime_generated_on now /\
    report.(Report.age) = data.(age).
Proof.
  destruct (factors_return data)
    as (af & ist & nw & db & lq & ch & im & bs & H).
  destruct H as (H1 & H2 & H3 & H4 & H5 & H6 & H7 & H8).
  pose proof (risk_score_returns data _ _ _ _ _ _ _ _
                H1 H2 H3 H4 H5 H6 H7 H8) as Hscore.
  set (score := pymax 0 _) in Hscore.
  destruct (interpret_risk_profile_returns score) as (p & Hp & _).
  destruct (recommendations_return data score) as (recs & Hrecs).
  destruct (warnings_return data) as (warns & Hwarns).
  destruct (action_plan_return data score) as (plan & Hplan).
  do 3 eexists.
  split; [exact Hscore |].
  split.
  - unfold get_full_report_data.
    mstep Hscore. cbv beta iota.
    mstep Hp.
    mstep key_ratios_returns.
    mstep Hrecs.
    mstep Hwarns.
    mstep Hplan.
    unfold ratio_table at 1.
    mstep formatted_ratios_returns.
    cbv zeta.
    eapply returns_bind; [lookup | cbv beta].
    do 3 mstep format_currency_returns.
    eapply returns_bind; [unfold ratio_table; lookup | cbv beta].
    do 3 mstep format_currency_returns.
    apply returns_ret.
  - cbn [Report.personalized_recommendations Report.urgent_attention_required
         Report.thirty_day_action_plan Report.key_financial_ratios
         Report.generated_on Report.age].
    repeat apply conj; try assumption; try reflexivity.
    unfold ratio_table. apply formatted_ratios_returns.
Qed.

(** ** The end-to-end example *)

Lemma example_lists :
  exists score breakdown recs warns,
    returns (calculate_comprehensive_risk_score example_profile)
      (score, breakdown) /\
    returns (generate_recommendations
               example_profile score (ratio_table example_profile)) recs /\
    returns (generate_warnings
               example_profile (ratio_table example_profile)) warns /\
    existsb (String.eqb retirement_recommendation) recs = true /\
    existsb (String.eqb critical_debt_warning) warns = false.
Proof.
  do 4 eexists.
  split; [intros self; vm_compute; reflexivity |].
  split; [intros self; vm_compute; reflexivity |].
  split; [intros self; vm_compute; reflexivity |].
  split; vm_compute; reflexivity.
Qed.

(** C7.  On the example profile the pipeline gives emergency fund months
    200000/30000 (about 6.67) and a debt-to-income ratio 15000/1200000
    (0.0125); the report lists the recommendation to start retirement
    planning and does not list the critical debt warning. *)
Theorem C7_end_to_end_example (now : datetime) :
  exists ratios efm dti report,
    returns (calculate_key_ratios example_profile) ratios /\
    returns (dict_get "emergency_fund_months" ratios) efm /\
    efm == 200000 / 30000 /\ 6.66 < efm < 6.67 /\
    returns (dict_get "debt_to_income" ratios) dti /\
    dti == 15000 / 1200000 /\ dti == 0.0125 /\
    returns (get_full_report_data now example_profile) report /\
    In ("emergency_fund_months", PyStr "6.7 months")
      report.(Report.key_financial_ratios) /\
    In ("debt_to_income", PyNum dti) report.(Report.key_financial_ratios) /\
    In retirement_recommendation
      report.(Report.personalized_recommendations) /\
    ~ In critical_debt_warning report.(Report.urgent_attention_required).
Proof.
  destruct (full_report_returns now example_profile)
    as (score & breakdown & report & Hscore & Hrep & Hrecs & Hwarns & _
        & Hfmt & _).
  assert (Hkfr := formatted_ratios_returns).
  pose proof (returns_inj _ _ _ Hfmt (Hkfr _ _ _ _ _ _ _)) as Hk.
  destruct example_lists
    as (score' & breakdown' & recs & warns & Hscore' & Hrecs' & Hwarns'
        & Hin & Hnotin).
  pose proof (returns_inj _ _ _ Hscore Hscore') as Heq.
  injection Heq as -> ->.
  exists (ratio_table example_profile).
  exists (200000 / 30000), ((5000 + 100000 * 0.1) / 1200000), report.
  rewrite Hk.
  rewrite (returns_inj _ _ _ Hrecs Hrecs').
  rewrite (returns_inj _ _ _ Hwarns Hwarns').
  split; [apply key_ratios_returns |].
  split; [intros self; reflexivity |].
  split; [reflexivity |].
  split; [split; reflexivity |].
  split; [intros self; reflexivity |].
  split; [reflexivity |].
  split; [reflexivity |].
  split; [exact Hrep |].
  split; [right; right; left; vm_compute; reflexivity |].
  split; [left; reflexivity |].
  split; [apply In_existsb; exact Hin | apply not_In_existsb; exact Hnotin].
Qed.

(** ** Formatting of the ratio table *)

Lemma format_pct_percentage (v : Q) :
  one_decimal_percentage (format_pct 1 v) v.
Proof.
  unfold one_decimal_percentage, format_pct.
  eexists. split; [reflexivity | apply format_f_shows].
Qed.

Lemma format_months (v : Q) :
  one_decimal_months (format_f 1 v ++ " months") v.
Proof.
  unfold one_decimal_months.
  eexists. split; [reflexivity | apply format_f_shows].
Qed.

(** C10.  For every ratio table the formatter turns [savings_rate],
    [investment_rate] and [expense_ratio] into percentage strings with one
    decimal and [emergency_fund_months] into a string "X.X months", and
    passes [debt_to_income] and [asset_utilization] through as raw numbers:
    neither name contains "rate", "ratio" or "worth".  The report of every
    request carries the ratio table of the request formatted this way. *)
Theorem C10_formatted_ratios :
  (forall v : Q,
      (exists s, returns (format_ratio "savings_rate" v) (PyStr s)
                 /\ one_decimal_percentage s v) /\
      (exists s, returns (format_ratio "investment_rate" v) (PyStr s)
                 /\ one_decimal_percentage s v) /\
      (exists s, returns (format_ratio "expense_ratio" v) (PyStr s)
                 /\ one_decimal_percentage s v) /\
      (exists s, returns (format_ratio "emergency_fund_months" v) (PyStr s)
                 /\ one_decimal_months s v) /\
      returns (format_ratio "debt_to_income" v) (PyNum v) /\
      returns (format_ratio "asset_utilization" v) (PyNum v)) /\
  forallb
    (fun k => negb (contains "rate" k || contains "ratio" k
                    || contains "worth" k))
    [ "debt_to_income"; "asset_utilization" ] = true /\
  returns (format_ratio "savings_rate" (200000 / 1200000))
    (PyStr "16.7%") /\
  returns (format_ratio "expense_ratio" (100 / 200000)) (PyStr "0.1%") /\
  returns (format_ratio "emergency_fund_months" (9000 / 20000))
    (PyStr "0.5 months") /\
  (forall (now : datetime) (data : FinancialProfile),
    exists dti sr efm ir nw au er s_sr s_efm s_ir worth s_er report,
      returns (calculate_key_ratios data)
        [ ("debt_to_income", dti); ("savings_rate", sr);
          ("emergency_fund_months", efm); ("investment_rate", ir);
          ("net_worth", nw); ("asset_utilization", au);
          ("expense_ratio", er) ] /\
      returns (get_full_report_data now data) report /\
      report.(Report.key_financial_ratios) =
        [ ("debt_to_income", PyNum dti);
          ("savings_rate", PyStr s_sr);
          ("emergency_fund_months", PyStr s_efm);
          ("investment_rate", PyStr s_ir);
          ("net_worth", PyStr worth);
          ("asset_utilization", PyNum au);
          ("expense_ratio", PyStr s_er) ] /\
      one_decimal_percentage s_sr sr /\
      one_decimal_months s_efm efm /\
      one_decimal_percentage s_ir ir /\
      returns (format_currency nw) worth /\
      one_decimal_percentage s_er er).
Proof.
  split.
  { intros v.
    split; [eexists; split; [lookup | apply format_pct_percentage] |].
    split; [eexists; split; [lookup | apply format_pct_percentage] |].
    split; [eexists; split; [lookup | apply format_pct_percentage] |].
    split; [eexists; split; [lookup | apply format_months] |].
    split; lookup. }
  split; [reflexivity |].
  split; [intros self; vm_compute; reflexivity |].
  split; [intros self; vm_compute; reflexivity |].
  split; [intros self; vm_compute; reflexivity |].
  intros now data.
  destruct (full_report_returns now data)
    as (score & breakdown & report & _ & Hrep & _ & _ & _ & Hfmt & _).
  do 12 eexists. exists report.
  split; [apply key_ratios_returns |].
  split; [exact Hrep |].
  split.
  { apply (returns_inj _ _ _ Hfmt).
    unfold ratio_table. apply formatted_ratios_returns. }
  split; [apply format_pct_percentage |].
  split; [apply format_months |].
  split; [apply format_pct_percentage |].
  split; [apply format_currency_returns |].
  apply format_pct_percentage.
Qed.

(** * Further properties of the engine *)

(** ** Bounds on the factors *)

(** Bounds of the minimum and the maximum met in a goal. *)
Ltac pymin_bound :=
  repeat match goal with
    | |- context [pymin ?a ?b] =>
        lazymatch goal with
        | _ : pymin a b <= a |- _ => fail
        | _ => pose proof (pymin_le_l a b);
               destruct (pymin_spec a b) as [[? ?] | [? ?]]
        end
    | |- context [pymax ?a ?b] =>
        lazymatch goal with
        | _ : a <= pymax a b |- _ => fail
        | _ => pose proof (pymax_ge_l a b);
               destruct (pymax_spec a b) as [[? ?] | [? ?]]
        end
    end;
  repeat match goal with
    | H : pymin _ _ = _ |- _ => rewrite H in *; clear H
    | H : pymax _ _ = _ |- _ => rewrite H in *; clear H
    end;
  lra.

(** No normalizer exceeds 1, whatever the request. *)
Lemma factors_at_most_one (data : FinancialProfile) :
  exists af ist nw db lq ch im bs : Q,
    returns (_calculate_age_factor data.(age)) af /\
    returns (_calculate_income_stability
               data.(salary) data.(city_index)) ist /\
    returns (_calculate_net_worth_ratio
               data.(assets) data.(liabilities) data.(salary)) nw /\
    returns (_calculate_debt_burden
               data.(emi) data.(liabilities) data.(salary)) db /\
    returns (_calculate_liquidity_score
               data.(savings) data.(monthly_expenses)) lq /\
    returns (_calculate_credit_health
               data.(credit_score) data.(defaulted)) ch /\
    returns (_calculate_investment_maturity
               data.(investments) data.(assets)) im /\
    returns (_calculate_behavioral_score data) bs /\
    0.2 <= af <= 0.9 /\ ist <= 1 /\ 0 <= nw <= 1 /\ db <= 1 /\ lq <= 1 /\
    0.03 <= ch <= 1 /\ im <= 1 /\ 0 <= bs <= 1.
Proof.
  destruct (behavioral_score_unit data) as (bs & Hbs & Hbsu).
  do 7 eexists. exists bs.
  repeat apply conj;
    [ apply age_factor_returns | apply income_stability_returns
    | apply net_worth_ratio_returns | apply debt_burden_returns
    | apply liquidity_score_returns | apply credit_health_returns
    | apply investment_maturity_returns | exact Hbs | .. ];
    try apply Hbsu.
  - destruct (age data <? 25)%Z, (age data <? 35)%Z, (age data <? 45)%Z,
      (age data <? 55)%Z; lra.
  - destruct (age data <? 25)%Z, (age data <? 35)%Z, (age data <? 45)%Z,
      (age data <? 55)%Z; lra.
  - destruct (city_index data =? 0); [lra | pymin_bound].
  - destruct (salary data =? 0); [lra |].
    pymin_bound.
  - destruct (salary data =? 0); [lra | pymin_bound].
  - destruct (salary data =? 0); [lra | pymin_bound].
  - destruct (monthly_expenses data =? 0); [lra |].
    destruct (_ >=? 12); [lra |]. destruct (_ >=? 6); [lra |].
    destruct (_ >=? 3); [lra | pymin_bound].
  - destruct (defaulted data), (credit_score data >=? 750)%Z,
      (credit_score data >=? 650)%Z, (credit_score data >=? 550)%Z; lra.
  - destruct (defaulted data), (credit_score data >=? 750)%Z,
      (credit_score data >=? 650)%Z, (credit_score data >=? 550)%Z; lra.
  - destruct (assets data =? 0); [lra | pymin_bound].
Qed.

(** ** The clamp of the aggregate *)

Lemma clamp_mono (x y : Q) :
  x <= y -> pymax 0 (pymin 100 x) <= pymax 0 (pymin 100 y).
Proof. intros H. pymin_bound. Qed.

Lemma clamp_above (x lo : Q) :
  lo <= 100 -> lo <= x -> lo <= pymax 0 (pymin 100 x).
Proof. intros H1 H2. pymin_bound. Qed.

Lemma clamp_below (x hi : Q) :
  0 <= hi -> x <= hi -> pymax 0 (pymin 100 x) <= hi.
Proof. intros H1 H2. pymin_bound. Qed.

(** ** The aggregate outside and inside the documented domain *)

(** X1.  Only the aggregate is clamped.  With a negative salary and some
    debt service the "Debt Management" entry of the breakdown exceeds 100,
    while the aggregate score is still within [0,100]. *)
Theorem breakdown_not_clamped (data : FinancialProfile) :
  data.(salary) < 0 ->
  0 < data.(emi) + data.(liabilities) * 0.1 ->
  exists score breakdown entry,
    returns (calculate_comprehensive_risk_score data) (score, breakdown) /\
    0 <= score <= 100 /\
    returns (dict_get "Debt Management" breakdown) entry /\
    100 < entry.
Proof.
  intros Hs Hd.
  destruct (factors_return data)
    as (af & ist & nw & db & lq & ch & im & bs & H).
  destruct H as (H1 & H2 & H3 & H4 & H5 & H6 & H7 & H8).
  do 3 eexists.
  split; [apply risk_score_returns; eassumption |].
  split; [apply clamp_range |].
  split; [lookup |].
  rewrite (returns_inj _ _ _ H4 (debt_burden_returns _ _ _)).
  destruct (salary data =? 0) eqn:E;
    [apply Qeq_bool_iff in E; lra |].
  assert (Hneg : (emi data + liabilities data * 0.1) / salary data < 0).
  { setoid_replace ((emi data + liabilities data * 0.1) / salary data)
      with (- ((emi data + liabilities data * 0.1) / - salary data)).
    - assert (0 < (emi data + liabilities data * 0.1) / - salary data)
        by (apply Qlt_shift_div_l; lra).
      lra.
    - field. lra. }
  pymin_bound.
Qed.

Lemma breakdown_not_clamped_witness :
  negative_salary_profile.(salary) < 0 /\
  exists score breakdown entry,
    returns (calculate_comprehensive_risk_score negative_salary_profile)
      (score, breakdown) /\
    0 <= score <= 100 /\
    returns (dict_get "Debt Management" breakdown) entry /\
    100 < entry.
Proof.
  assert (Hs : negative_salary_profile.(salary) < 0) by reflexivity.
  split; [exact Hs |].
  apply (breakdown_not_clamped negative_salary_profile Hs).
  reflexivity.
Defined.

(** X2.  In the documented domain the score is never below 3.3: the age
    factor is at least 0.2 and the credit health at least 0.03, so the lower
    bound of the clamp is never reached. *)
Theorem score_floor (data : FinancialProfile) :
  valid_profile data ->
  exists score breakdown,
    returns (calculate_comprehensive_risk_score data) (score, breakdown) /\
    3.3 <= score.
Proof.
  intros (Hs & Hc & Ha & Hl & Hsv & Hi & Hm & He & Hr).
  destruct (factors_at_most_one data)
    as (af & ist & nw & db & lq & ch & im & bs & H).
  destruct H as (H1 & H2 & H3 & H4 & H5 & H6 & H7 & H8 & B).
  destruct B as (Baf & _ & Bnw & Bdb & _ & Bch & _ & Bbs).
  destruct (income_stability_unit _ _ Hs Hc) as (ist' & Hist & Bist).
  destruct (liquidity_score_unit _ _ Hsv Hm) as (lq' & Hlq & Blq).
  destruct (investment_maturity_unit _ _ Hi Ha) as (im' & Him & Bim).
  pose proof (returns_inj _ _ _ H2 Hist); subst ist'.
  pose proof (returns_inj _ _ _ H5 Hlq); subst lq'.
  pose proof (returns_inj _ _ _ H7 Him); subst im'.
  do 2 eexists.
  split; [apply risk_score_returns; eassumption |].
  apply clamp_above; [lra |].
  unfold weighted_sum, unit_interval in *. lra.
Qed.

Lemma weakest_profile_valid : valid_profile weakest_profile.
Proof. unfold valid_profile, weakest_profile; simpl. repeat split; lra. Qed.

Lemma score_floor_witness :
  valid_profile weakest_profile /\
  exists score breakdown,
    returns (calculate_comprehensive_risk_score weakest_profile)
      (score, breakdown) /\
    3.3 <= score.
Proof.
  split; [exact weakest_profile_valid |].
  exact (score_floor weakest_profile weakest_profile_valid).
Defined.

(** X3.  Between two requests that differ in the risk tolerance only, the
    one with the higher tolerance never has the lower score. *)
Theorem risk_tolerance_monotone (data : FinancialProfile) (rt1 rt2 : Q) :
  rt1 <= rt2 ->
  exists s1 b1 s2 b2,
    returns (calculate_comprehensive_risk_score
               (with_risk_tolerance data rt1)) (s1, b1) /\
    returns (calculate_comprehensive_risk_score
               (with_risk_tolerance data rt2)) (s2, b2) /\
    s1 <= s2.
Proof.
  intros Hle.
  destruct (factors_return data)
    as (af & ist & nw & db & lq & ch & im & bs & H).
  destruct H as (H1 & H2 & H3 & H4 & H5 & H6 & H7 & H8).
  pose proof (risk_score_returns (with_risk_tolerance data rt1)
                af ist nw db lq ch im bs H1 H2 H3 H4 H5 H6 H7 H8) as R1.
  pose proof (risk_score_returns (with_risk_tolerance data rt2)
                af ist nw db lq ch im bs H1 H2 H3 H4 H5 H6 H7 H8) as R2.
  cbn [risk_tolerance with_risk_tolerance] in R1, R2.
  do 4 eexists.
  split; [exact R1 |]. split; [exact R2 |].
  apply clamp_mono. unfold weighted_sum. lra.
Qed.

Lemma risk_tolerance_monotone_witness :
  0.2 <= 0.9 /\
  exists s1 b1 s2 b2,
    returns (calculate_comprehensive_risk_score
               (with_risk_tolerance example_profile 0.2)) (s1, b1) /\
    returns (calculate_comprehensive_risk_score
               (with_risk_tolerance example_profile 0.9)) (s2, b2) /\
    s1 <= s2.
Proof.
  assert (H : 0.2 <= 0.9) by lra.
  split; [exact H |].
  exact (risk_tolerance_monotone example_profile 0.2 0.9 H).
Defined.

Lemma income_stability_no_salary (s c : Q) :
  s == 0 ->
  exists v, returns (_calculate_income_stability s c) v /\ v == 0.
Proof.
  intros Hs. eexists. split; [apply income_stability_returns |].
  destruct (c =? 0); [reflexivity |].
  assert (H0 : s / (c * 100000) / 10 == 0)
    by (rewrite Hs; unfold Qdiv; ring).
  destruct (pymin_spec 1.0 (s / (c * 100000) / 10)) as [[H ->] | [H ->]];
    [exact H0 | lra].
Qed.

(** X4.  Without income the score is at most 53.5, whatever the rest of
    the request (with a risk tolerance of at most 1): the income stability
    and the net worth ratio are 0 and the debt burden is 1.  The profile is
    then never "Growth Investor" nor "Aggressive Investor". *)
Theorem no_income_caps_profile (data : FinancialProfile) :
  data.(salary) == 0 ->
  data.(risk_tolerance) <= 1 ->
  exists score breakdown p,
    returns (calculate_comprehensive_risk_score data) (score, breakdown) /\
    score <= 53.5 /\
    returns (interpret_risk_profile score) p /\
    In p.(profile)
      [ "Capital Preservation"; "Conservative Investor";
        "Balanced Investor" ].
Proof.
  intros Hs Hr.
  destruct (factors_at_most_one data)
    as (af & ist & nw & db & lq & ch & im & bs & H).
  destruct H as (H1 & H2 & H3 & H4 & H5 & H6 & H7 & H8 & B).
  destruct B as (Baf & _ & _ & _ & Blq & Bch & Bim & Bbs).
  destruct (income_stability_no_salary _ (city_index data) Hs)
    as (ist' & Hist & Eist).
  pose proof (returns_inj _ _ _ H2 Hist); subst ist'.
  assert (Heq : (salary data =? 0) = true)
    by (apply Qeq_bool_iff; exact Hs).
  pose proof (returns_inj _ _ _ H3 (net_worth_ratio_returns _ _ _)) as Enw.
  pose proof (returns_inj _ _ _ H4 (debt_burden_returns _ _ _)) as Edb.
  rewrite Heq in Enw, Edb. subst nw db.
  pose proof (risk_score_returns data _ _ _ _ _ _ _ _
                H1 H2 H3 H4 H5 H6 H7 H8) as Hscore.
  set (score := pymax 0 _) in Hscore.
  assert (Hcap : score <= 53.5).
  { apply clamp_below; [lra |]. unfold weighted_sum. lra. }
  destruct (interpret_risk_profile_returns score) as (p & Hp & Hname).
  exists score. do 2 eexists.
  split; [exact Hscore |]. split; [exact Hcap |]. split; [exact Hp |].
  rewrite Hname. qcases; try lra; simpl; tauto.
Qed.

Lemma no_income_caps_profile_witness :
  zero_profile.(salary) == 0 /\ zero_profile.(risk_tolerance) <= 1 /\
  exists score breakdown,
    returns (calculate_comprehensive_risk_score zero_profile)
      (score, breakdown) /\
    score <= 53.5.
Proof.
  assert (Hs : zero_profile.(salary) == 0) by reflexivity.
  assert (Hr : zero_profile.(risk_tolerance) <= 1)
    by (unfold zero_profile; simpl; lra).
  split; [exact Hs |]. split; [exact Hr |].
  destruct (no_income_caps_profile zero_profile Hs Hr)
    as (score & breakdown & p & Hret & Hcap & _).
  exists score, breakdown. split; assumption.
Defined.

(** ** Rule lists *)

Lemma fired_In (rules : list (bool * string)) (s : string) :
  In s (fired rules) <-> In (true, s) rules.
Proof.
  unfold fired. induction rules as [| [b t] rules IH]; [tauto |].
  destruct b; cbn [filter fst map snd In]; rewrite IH; split.
  - intros [-> | H]; auto.
  - intros [H | H]; [injection H as ->; auto | auto].
  - auto.
  - intros [H | H]; [discriminate H | exact H].
Qed.

Lemma fired_length (rules : list (bool * string)) :
  (List.length (fired rules) <= List.length rules)%nat.
Proof.
  unfold fired. rewrite length_map. apply filter_length_le.
Qed.

Lemma fired_NoDup (rules : list (bool * string)) :
  NoDup (map snd rules) -> NoDup (fired rules).
Proof.
  unfold fired. induction rules as [| [b s] rules IH]; [intros; constructor |].
  cbn [map snd filter fst]. intros Hnd.
  apply NoDup_cons_iff in Hnd as [Hnotin Hnd].
  destruct b; cbn [map snd]; [| auto].
  constructor; [| auto].
  intros Hin. apply Hnotin.
  apply in_map_iff in Hin as ([b' s'] & Hs & Hin).
  apply filter_In in Hin as [Hin _].
  apply in_map_iff. exists (b', s'). auto.
Qed.

Lemma rule_neq (b b' : bool) (s s' : string) :
  String.eqb s s' = false -> (b, s) = (b', s') -> False.
Proof.
  intros Hne Heq. injection Heq as _ ->.
  rewrite String.eqb_refl in Hne. discriminate Hne.
Qed.

(** A rule is in an explicit list of rules with distinct items only at its
    own place. *)
Ltac rule_cases H :=
  repeat (destruct H as [H | H];
          [ first [ injection H as H; exact H
                  | exfalso; apply rule_neq in H;
                    [exact H | vm_compute; reflexivity] ]
          | ]);
  destruct H.

Ltac rule_iff rules :=
  rewrite fired_In; unfold rules; cbn [In]; split;
  [ let H := fresh "H" in intros H; rule_cases H
  | let H := fresh "H" in intros H; rewrite H; auto 12 ].

Lemma fold_rules (rules : list (bool * string)) (acc : list string) :
  fold_left (fun (r : list string) (rule : bool * string) =>
               if fst rule then append r (snd rule) else r)
    rules acc
  = (acc ++ fired rules)%list.
Proof.
  revert acc. induction rules as [| [b s] rules IH]; intros acc.
  - cbn. symmetry. apply app_nil_r.
  - cbn [fold_left fst snd]. rewrite IH. unfold fired.
    destruct b; cbn [filter fst map snd]; [| reflexivity].
    unfold append. rewrite <- app_assoc. reflexivity.
Qed.

Lemma warnings_returns
  (data : FinancialProfile) (ratios : dict Q) (dti efm er : Q) :
  returns (dict_get "debt_to_income" ratios) dti ->
  returns (dict_get "emergency_fund_months" ratios) efm ->
  returns (dict_get "expense_ratio" ratios) er ->
  returns (generate_warnings data ratios)
    (fired (warning_rules data dti efm er)).
Proof.
  intros Hdti Hefm Her.
  unfold generate_warnings, warning_rules.
  mstep Hdti. mstep Hefm. mstep Her.
  destruct (dti >? 0.5), (efm <? 1), (credit_score data <? 500)%Z,
    (er >? 0.9), (defaulted data && (loans data >? 0)%Z);
    apply returns_ret.
Qed.

Lemma fired_warning_rules (data : FinancialProfile) (dti efm er : Q) :
  let warns := fired (warning_rules data dti efm er) in
  NoDup warns /\
  (In critical_debt_warning warns <-> 0.5 < dti) /\
  (In no_emergency_fund_warning warns <-> efm < 1) /\
  (In poor_credit_warning warns <-> (data.(credit_score) < 500)%Z) /\
  (In expenses_warning warns <-> 0.9 < er) /\
  (In default_with_loans_warning warns <->
     data.(defaulted) = true /\ (0 < data.(loans))%Z).
Proof.
  cbv zeta. split.
  { apply fired_NoDup. unfold warning_rules. cbn [map snd].
    repeat (constructor;
            [apply not_In_existsb; vm_compute; reflexivity |]);
    constructor. }
  split; [| split; [| split; [| split]]].
  - rewrite <- Qltb_lt. rule_iff warning_rules.
  - rewrite <- Qltb_lt. rule_iff warning_rules.
  - rewrite <- Z.ltb_lt. rule_iff warning_rules.
  - rewrite <- Qltb_lt. rule_iff warning_rules.
  - rewrite <- Z.gtb_lt, <- andb_true_iff. rule_iff warning_rules.
Qed.

(** X5.  The warnings are the items of the five warning rules that hold,
    in the fixed order: each warning is listed exactly when its own
    predicate holds on the ratios read from the table, and at most once. *)
Theorem warnings_exact
  (data : FinancialProfile) (ratios : dict Q) (dti efm er : Q) :
  returns (dict_get "debt_to_income" ratios) dti ->
  returns (dict_get "emergency_fund_months" ratios) efm ->
  returns (dict_get "expense_ratio" ratios) er ->
  exists warns,
    returns (generate_warnings data ratios) warns /\
    warns = fired (warning_rules data dti efm er) /\
    NoDup warns /\
    (In critical_debt_warning warns <-> 0.5 < dti) /\
    (In no_emergency_fund_warning warns <-> efm < 1) /\
    (In poor_credit_warning warns <-> (data.(credit_score) < 500)%Z) /\
    (In expenses_warning warns <-> 0.9 < er) /\
    (In default_with_loans_warning warns <->
       data.(defaulted) = true /\ (0 < data.(loans))%Z).
Proof.
  intros Hdti Hefm Her.
  eexists. split; [apply warnings_returns; eassumption |].
  split; [reflexivity |].
  apply fired_warning_rules.
Qed.

Lemma recommendations_returns
  (data : FinancialProfile) (risk_score : Q) (ratios : dict Q)
  (efm dti sr ir : Q) :
  returns (dict_get "emergency_fund_months" ratios) efm ->
  returns (dict_get "debt_to_income" ratios) dti ->
  returns (dict_get "savings_rate" ratios) sr ->
  returns (dict_get "investment_rate" ratios) ir ->
  returns (generate_recommendations data risk_score ratios)
    (fired (recommendation_rules data risk_score efm dti sr ir)).
Proof.
  intros Hefm Hdti Hsr Hir.
  change (fired (recommendation_rules data risk_score efm dti sr ir))
    with ([] ++ fired (recommendation_rules
                         data risk_score efm dti sr ir))%list.
  rewrite <- fold_rules.
  unfold generate_recommendations, recommendation_rules.
  mstep Hefm. mstep Hdti. mstep Hsr. mstep Hir.
  apply returns_ret.
Qed.

Lemma fired_recommendation_rules
  (data : FinancialProfile) (risk_score efm dti sr ir : Q) :
  let recs := fired (recommendation_rules data risk_score efm dti sr ir) in
  NoDup recs /\
  (In (emergency_fund_recommendation efm) recs <-> efm < 6) /\
  (In (reduce_debt_recommendation dti) recs <-> 0.4 < dti) /\
  (In (increase_savings_recommendation sr) recs <-> sr < 0.2) /\
  (In increase_investments_recommendation recs <->
     ir < 0.15 /\ 40 < risk_score) /\
  (In insurance_recommendation recs <-> data.(insurance) = "None") /\
  (In credit_recommendation recs <-> (data.(credit_score) < 650)%Z) /\
  (In budget_recommendation recs <-> data.(budget) = false) /\
  (In automate_recommendation recs <-> data.(automate) = false) /\
  (In retirement_recommendation recs <->
     (data.(age) < 30)%Z /\ data.(retirement) = false).
Proof.
  cbv zeta. split.
  { apply fired_NoDup. unfold recommendation_rules. cbn [map snd].
    repeat (constructor;
            [apply not_In_existsb; vm_compute; reflexivity |]);
    constructor. }
  split; [| split; [| split; [| split; [| split; [| split;
    [| split; [| split]]]]]]].
  - rewrite <- Qltb_lt. rule_iff recommendation_rules.
  - rewrite <- Qltb_lt. rule_iff recommendation_rules.
  - rewrite <- Qltb_lt. rule_iff recommendation_rules.
  - rewrite <- !Qltb_lt, <- andb_true_iff. rule_iff recommendation_rules.
  - rewrite <- String.eqb_eq. rule_iff recommendation_rules.
  - rewrite <- Z.ltb_lt. rule_iff recommendation_rules.
  - rewrite <- negb_true_iff. rule_iff recommendation_rules.
  - rewrite <- negb_true_iff. rule_iff recommendation_rules.
  - rewrite <- Z.ltb_lt, <- negb_true_iff, <- andb_true_iff.
    rule_iff recommendation_rules.
Qed.

(** X6.  The recommendations are the items of the nine recommendation rules
    that hold, in the fixed order: each recommendation is listed exactly
    when its own predicate holds, at most once, and the three that quote a
    ratio quote the one read from the table. *)
Theorem recommendations_exact
  (data : FinancialProfile) (risk_score : Q) (ratios : dict Q)
  (efm dti sr ir : Q) :
  returns (dict_get "emergency_fund_months" ratios) efm ->
  returns (dict_get "debt_to_income" ratios) dti ->
  returns (dict_get "savings_rate" ratios) sr ->
  returns (dict_get "investment_rate" ratios) ir ->
  exists recs,
    returns (generate_recommendations data risk_score ratios) recs /\
    recs = fired (recommendation_rules data risk_score efm dti sr ir) /\
    NoDup recs /\
    (In (emergency_fund_recommendation efm) recs <-> efm < 6) /\
    (In (reduce_debt_recommendation dti) recs <-> 0.4 < dti) /\
    (In (increase_savings_recommendation sr) recs <-> sr < 0.2) /\
    (In increase_investments_recommendation recs <->
       ir < 0.15 /\ 40 < risk_score) /\
    (In insurance_recommendation recs <-> data.(insurance) = "None") /\
    (In credit_recommendation recs <-> (data.(credit_score) < 650)%Z) /\
    (In budget_recommendation recs <-> data.(budget) = false) /\
    (In automate_recommendation recs <-> data.(automate) = false) /\
    (In retirement_recommendation recs <->
       (data.(age) < 30)%Z /\ data.(retirement) = false).
Proof.
  intros Hefm Hdti Hsr Hir.
  eexists. split; [apply recommendations_returns; eassumption |].
  split; [reflexivity |].
  apply fired_recommendation_rules.
Qed.

Lemma warnings_exact_witness :
  exists dti efm er warns,
    returns (dict_get "debt_to_income" (ratio_table weakest_profile)) dti /\
    returns (dict_get "emergency_fund_months"
               (ratio_table weakest_profile)) efm /\
    returns (dict_get "expense_ratio" (ratio_table weakest_profile)) er /\
    returns (generate_warnings weakest_profile
               (ratio_table weakest_profile)) warns /\
    In no_emergency_fund_warning warns /\
    ~ In critical_debt_warning warns.
Proof.
  assert (Hdti : returns (dict_get "debt_to_income"
                            (ratio_table weakest_profile)) 0)
    by (intros self; reflexivity).
  assert (Hefm : returns (dict_get "emergency_fund_months"
                            (ratio_table weakest_profile)) (0 / 1000))
    by (intros self; reflexivity).
  assert (Her : returns (dict_get "expense_ratio"
                           (ratio_table weakest_profile)) 0)
    by (intros self; reflexivity).
  destruct (warnings_exact weakest_profile _ _ _ _ Hdti Hefm Her)
    as (warns & Hret & _ & _ & Hcrit & Hfund & _).
  exists 0, (0 / 1000), 0, warns.
  repeat (split; [assumption |]).
  split; [apply Hfund; reflexivity |].
  intros Hin. apply Hcrit in Hin. revert Hin. apply Qle_not_lt. lra.
Defined.

Lemma recommendations_exact_witness :
  exists efm dti sr ir recs,
    returns (dict_get "emergency_fund_months"
               (ratio_table example_profile)) efm /\
    returns (dict_get "debt_to_income" (ratio_table example_profile)) dti /\
    returns (dict_get "savings_rate" (ratio_table example_profile)) sr /\
    returns (dict_get "investment_rate" (ratio_table example_profile)) ir /\
    returns (generate_recommendations example_profile 50
               (ratio_table example_profile)) recs /\
    In retirement_recommendation recs /\
    ~ In budget_recommendation recs.
Proof.
  assert (Hefm : returns (dict_get "emergency_fund_months"
                            (ratio_table example_profile))
                   (200000 / 30000))
    by (intros self; reflexivity).
  assert (Hdti : returns (dict_get "debt_to_income"
                            (ratio_table example_profile))
                   ((5000 + 100000 * 0.1) / 1200000))
    by (intros self; reflexivity).
  assert (Hsr : returns (dict_get "savings_rate"
                           (ratio_table example_profile))
                  (200000 / 1200000))
    by (intros self; reflexivity).
  assert (Hir : returns (dict_get "investment_rate"
                           (ratio_table example_profile))
                  (50000 / 1200000))
    by (intros self; reflexivity).
  destruct (recommendations_exact example_profile 50 _ _ _ _ _
              Hefm Hdti Hsr Hir)
    as (recs & Hret & _ & _ & _ & _ & _ & _ & _ & _ & Hbud & _ & Hretire).
  do 4 eexists. exists recs.
  repeat (split; [eassumption |]).
  split; [apply Hretire; split; [reflexivity | reflexivity] |].
  intros Hin. apply Hbud in Hin. discriminate Hin.
Defined.

(** ** Missing keys *)

Lemma raises_bind_now {A B : Type} (m : M A) (k : A -> M B) (e : exn) :
  raises m e -> raises (bind m k) e.
Proof. intros Hm self. unfold bind. rewrite (Hm self). reflexivity. Qed.

Lemma raises_bind_later {A B : Type}
  (m : M A) (k : A -> M B) (a : A) (e : exn) :
  returns m a -> raises (k a) e -> raises (bind m k) e.
Proof. intros Hm Hk self. unfold bind. rewrite (Hm self). apply Hk. Qed.

Lemma dict_get_cases {V : Type} (k : string) (d : dict V) :
  (existsb (String.eqb k) (map fst d) = true
   /\ exists v, returns (dict_get k d) v)
  \/ (existsb (String.eqb k) (map fst d) = false
      /\ raises (dict_get k d) (KeyError k)).
Proof.
  induction d as [| [k' v] d IH]; cbn [map fst existsb dict_get].
  - right. split; [reflexivity | intros self; reflexivity].
  - destruct (String.eqb k k'); cbn [orb].
    + left. split; [reflexivity | exists v; apply returns_ret].
    + exact IH.
Qed.

(** Split on whether the next key read is in the table. *)
Ltac read_key k d :=
  let E := fresh "E" in
  let v := fresh "v" in
  let H := fresh "H" in
  destruct (dict_get_cases k d) as [[E [v H]] | [E H]];
  cbn [first_missing]; rewrite E;
  [ | solve [ apply raises_bind_now; exact H
            | repeat (eapply raises_bind_later; [eassumption | cbv beta]);
              apply raises_bind_now; exact H ] ].

(** X7.  A rule set run on a ratio table that lacks one of the keys it
    reads raises [KeyError] with the first such key, in its reading order,
    and produces no list; with all its keys it returns.  The action plan
    reads [emergency_fund_months], then [debt_to_income]; the warnings read
    [debt_to_income], [emergency_fund_months], [expense_ratio]; the
    recommendations read [emergency_fund_months], [debt_to_income],
    [savings_rate], [investment_rate]. *)
Theorem rule_sets_missing_key
  (data : FinancialProfile) (risk_score : Q) (ratios : dict Q) :
  match first_missing ["emergency_fund_months"; "debt_to_income"] ratios with
  | Some k => raises (_generate_action_plan data ratios risk_score) (KeyError k)
  | None => exists plan,
      returns (_generate_action_plan data ratios risk_score) plan
  end /\
  match first_missing
          ["debt_to_income"; "emergency_fund_months"; "expense_ratio"]
          ratios with
  | Some k => raises (generate_warnings data ratios) (KeyError k)
  | None => exists warns, returns (generate_warnings data ratios) warns
  end /\
  match first_missing
          ["emergency_fund_months"; "debt_to_income"; "savings_rate";
           "investment_rate"] ratios with
  | Some k =>
      raises (generate_recommendations data risk_score ratios) (KeyError k)
  | None => exists recs,
      returns (generate_recommendations data risk_score ratios) recs
  end.
Proof.
  split; [| split].
  - unfold _generate_action_plan.
    read_key "emergency_fund_months" ratios.
    read_key "debt_to_income" ratios.
    eexists. apply (action_plan_returns data ratios risk_score); eassumption.
  - unfold generate_warnings.
    read_key "debt_to_income" ratios.
    read_key "emergency_fund_months" ratios.
    read_key "expense_ratio" ratios.
    eexists. apply (warnings_returns data ratios); eassumption.
  - unfold generate_recommendations.
    read_key "emergency_fund_months" ratios.
    read_key "debt_to_income" ratios.
    read_key "savings_rate" ratios.
    read_key "investment_rate" ratios.
    eexists. apply (recommendations_returns data risk_score ratios);
      eassumption.
Qed.

(** ** The action plan: what the truncation keeps *)

Lemma fired_conditional_rules (data : FinancialProfile) (efm dti : Q) :
  let items := fired (conditional_rules data efm dti) in
  NoDup items /\
  ~ In review_portfolio_action items /\
  ~ In schedule_review_action items /\
  (In open_savings_action items <-> efm < 3) /\
  (In track_expenses_action items <-> data.(budget) = false) /\
  (In research_insurance_action items <-> data.(insurance) = "None") /\
  (In credit_report_action items <-> (data.(credit_score) < 650)%Z) /\
  (In automate_payments_action items <-> data.(automate) = false) /\
  (In debt_consolidation_action items <-> 0.4 < dti).
Proof.
  cbv zeta. split.
  { apply fired_NoDup. unfold conditional_rules. cbn [map snd].
    repeat (constructor;
            [apply not_In_existsb; vm_compute; reflexivity |]);
    constructor. }
  split; [| split].
  1-2: rewrite fired_In; unfold conditional_rules; cbn [In];
    intros H; rule_cases H.
  split; [| split; [| split; [| split; [| split]]]].
  - rewrite <- Qltb_lt. rule_iff conditional_rules.
  - rewrite <- negb_true_iff. rule_iff conditional_rules.
  - rewrite <- String.eqb_eq. rule_iff conditional_rules.
  - rewrite <- Z.ltb_lt. rule_iff conditional_rules.
  - rewrite <- negb_true_iff. rule_iff conditional_rules.
  - rewrite <- Qltb_lt. rule_iff conditional_rules.
Qed.

Lemma conditional_rules_length (data : FinancialProfile) (efm dti : Q) :
  (List.length (fired (conditional_rules data efm dti)) <= 6)%nat.
Proof. apply (fired_length (conditional_rules data efm dti)). Qed.

(** Cutting after [n] items keeps a prefix of at most [n] items whole. *)
Lemma firstn_keeps_prefix {A : Type} (n : nat) (l tail : list A) (x : A) :
  (List.length l <= n)%nat -> In x l -> In x (firstn n (l ++ tail)).
Proof.
  intros Hlen Hin. rewrite firstn_app, (firstn_all2 l Hlen).
  apply in_or_app. left. exact Hin.
Qed.

Lemma firstn_subset {A : Type} (n : nat) (l : list A) (x : A) :
  In x (firstn n l) -> In x l.
Proof.
  intros H. rewrite <- (firstn_skipn n l). apply in_or_app. left. exact H.
Qed.

Lemma plan_conditional_items
  (data : FinancialProfile) (efm dti : Q) (a : string) :
  a <> review_portfolio_action -> a <> schedule_review_action ->
  (In a (firstn 6 (fired (conditional_rules data efm dti)
                   ++ [review_portfolio_action; schedule_review_action]))
   <-> In a (fired (conditional_rules data efm dti))).
Proof.
  intros H1 H2. split.
  - intros Hin. apply firstn_subset, in_app_or in Hin.
    destruct Hin as [Hin | [Hin | [Hin | []]]]; congruence.
  - apply firstn_keeps_prefix, conditional_rules_length.
Qed.

Lemma action_neq (a b : string) : String.eqb a b = false -> a <> b.
Proof. intros H ->. rewrite String.eqb_refl in H. discriminate H. Qed.

(** X8.  The truncation of the action plan never drops a conditional
    action: each of the six is in the plan exactly when its own predicate
    holds.  The plan has at least two and at most six items. *)
Theorem action_plan_keeps_conditional
  (data : FinancialProfile) (ratios : dict Q) (risk_score efm dti : Q) :
  returns (dict_get "emergency_fund_months" ratios) efm ->
  returns (dict_get "debt_to_income" ratios) dti ->
  exists plan,
    returns (_generate_action_plan data ratios risk_score) plan /\
    (2 <= List.length plan <= 6)%nat /\
    (In open_savings_action plan <-> efm < 3) /\
    (In track_expenses_action plan <-> data.(budget) = false) /\
    (In research_insurance_action plan <-> data.(insurance) = "None") /\
    (In credit_report_action plan <-> (data.(credit_score) < 650)%Z) /\
    (In automate_payments_action plan <-> data.(automate) = false) /\
    (In debt_consolidation_action plan <-> 0.4 < dti).
Proof.
  intros Hefm Hdti.
  eexists. split; [apply action_plan_returns; eassumption |].
  split.
  { rewrite length_firstn, length_app. cbn [List.length].
    pose proof (conditional_rules_length data efm dti). lia. }
  destruct (fired_conditional_rules data efm dti)
    as (_ & _ & _ & I1 & I2 & I3 & I4 & I5 & I6).
  repeat split;
    try (rewrite plan_conditional_items;
         [ first [apply I1 | apply I2 | apply I3 | apply I4 | apply I5
                 | apply I6]
         | apply action_neq; vm_compute; reflexivity
         | apply action_neq; vm_compute; reflexivity ]).
Qed.

Lemma action_plan_keeps_conditional_witness :
  exists efm dti plan,
    returns (dict_get "emergency_fund_months"
               (ratio_table five_rules_profile)) efm /\
    returns (dict_get "debt_to_income" (ratio_table five_rules_profile)) dti /\
    returns (_generate_action_plan
               five_rules_profile (ratio_table five_rules_profile) 0) plan /\
    In open_savings_action plan /\ ~ In debt_consolidation_action plan.
Proof.
  assert (Hefm : returns (dict_get "emergency_fund_months"
                            (ratio_table five_rules_profile)) (0 / 20000))
    by (intros self; reflexivity).
  assert (Hdti : returns (dict_get "debt_to_income"
                            (ratio_table five_rules_profile))
                   ((0 + 0 * 0.1) / 600000))
    by (intros self; reflexivity).
  destruct (action_plan_keeps_conditional
              five_rules_profile (ratio_table five_rules_profile) 0 _ _
              Hefm Hdti)
    as (plan & Hplan & _ & Hsave & _ & _ & _ & _ & Hdebt).
  exists (0 / 20000), ((0 + 0 * 0.1) / 600000), plan.
  repeat (split; [assumption |]).
  split; [apply Hsave; reflexivity |].
  intros Hin. apply Hdebt in Hin. revert Hin. apply Qle_not_lt.
  vm_compute. discriminate.
Defined.

(** ** The three lists of a report *)

Lemma ratio_table_reads (data : FinancialProfile) :
  returns (dict_get "debt_to_income" (ratio_table data))
    (debt_to_income_of data) /\
  returns (dict_get "savings_rate" (ratio_table data))
    (savings_rate_of data) /\
  returns (dict_get "emergency_fund_months" (ratio_table data))
    (emergency_fund_months_of data) /\
  returns (dict_get "investment_rate" (ratio_table data))
    (investment_rate_of data) /\
  returns (dict_get "expense_ratio" (ratio_table data))
    (expense_ratio_of data).
Proof. repeat apply conj; lookup. Qed.

(** The lists of the report of a request, as fired rules. *)
Lemma report_lists (now : datetime) (data : FinancialProfile) :
  exists score breakdown report,
    returns (calculate_comprehensive_risk_score data) (score, breakdown) /\
    returns (get_full_report_data now data) report /\
    report.(Report.urgent_attention_required) =
      fired (warning_rules data (debt_to_income_of data)
               (emergency_fund_months_of data) (expense_ratio_of data)) /\
    report.(Report.personalized_recommendations) =
      fired (recommendation_rules data score
               (emergency_fund_months_of data) (debt_to_income_of data)
               (savings_rate_of data) (investment_rate_of data)) /\
    report.(Report.thirty_day_action_plan) =
      firstn 6 (fired (conditional_rules data
                         (emergency_fund_months_of data)
                         (debt_to_income_of data))
                ++ [review_portfolio_action; schedule_review_action]).
Proof.
  destruct (full_report_returns now data)
    as (score & breakdown & report & Hscore & Hrep & Hrecs & Hwarns
        & Hplan & _).
  destruct (ratio_table_reads data) as (Hdti & Hsr & Hefm & Hir & Her).
  exists score, breakdown, report.
  split; [exact Hscore |]. split; [exact Hrep |].
  split; [| split].
  - apply (returns_inj _ _ _ Hwarns).
    apply warnings_returns; assumption.
  - apply (returns_inj _ _ _ Hrecs).
    apply recommendations_returns; assumption.
  - apply (returns_inj _ _ _ Hplan).
    apply action_plan_returns; assumption.
Qed.

Lemma plan_item_iff (data : FinancialProfile) (efm dti : Q) (a : string) :
  String.eqb a review_portfolio_action = false ->
  String.eqb a schedule_review_action = false ->
  (In a (firstn 6 (fired (conditional_rules data efm dti)
                   ++ [review_portfolio_action; schedule_review_action]))
   <-> In a (fired (conditional_rules data efm dti))).
Proof.
  intros H1 H2. apply plan_conditional_items; apply action_neq; assumption.
Qed.

(** X9.  The three lists of a report agree with each other.  A warning
    about critical debt, a missing emergency fund or a very poor credit
    score always comes with the matching recommendation and the matching
    action; the actions on budgeting, insurance, credit, automation and
    debt are in the plan exactly when the matching recommendation is
    listed. *)
Theorem report_lists_consistent (now : datetime) (data : FinancialProfile) :
  exists report,
    returns (get_full_report_data now data) report /\
    let warns := report.(Report.urgent_attention_required) in
    let recs := report.(Report.personalized_recommendations) in
    let plan := report.(Report.thirty_day_action_plan) in
    (In critical_debt_warning warns ->
       In (reduce_debt_recommendation (debt_to_income_of data)) recs /\
       In debt_consolidation_action plan) /\
    (In no_emergency_fund_warning warns ->
       In (emergency_fund_recommendation (emergency_fund_months_of data))
          recs /\
       In open_savings_action plan) /\
    (In poor_credit_warning warns ->
       In credit_recommendation recs /\ In credit_report_action plan) /\
    (In open_savings_action plan ->
       In (emergency_fund_recommendation (emergency_fund_months_of data))
          recs) /\
    (In track_expenses_action plan <-> In budget_recommendation recs) /\
    (In research_insurance_action plan <->
       In insurance_recommendation recs) /\
    (In credit_report_action plan <-> In credit_recommendation recs) /\
    (In automate_payments_action plan <-> In automate_recommendation recs) /\
    (In debt_consolidation_action plan <->
       In (reduce_debt_recommendation (debt_to_income_of data)) recs).
Proof.
  destruct (report_lists now data)
    as (score & breakdown & report & _ & Hrep & Ew & Er & Ep).
  exists report. split; [exact Hrep |]. cbv zeta.
  rewrite Ew, Er, Ep.
  destruct (fired_warning_rules data (debt_to_income_of data)
              (emergency_fund_months_of data) (expense_ratio_of data))
    as (_ & W1 & W2 & W3 & _).
  destruct (fired_recommendation_rules data score
              (emergency_fund_months_of data) (debt_to_income_of data)
              (savings_rate_of data) (investment_rate_of data))
    as (_ & R1 & R2 & _ & _ & R5 & R6 & R7 & R8 & _).
  destruct (fired_conditional_rules data (emergency_fund_months_of data)
              (debt_to_income_of data))
    as (_ & _ & _ & A1 & A2 & A3 & A4 & A5 & A6).
  rewrite !plan_item_iff by (vm_compute; reflexivity).
  rewrite W1, W2, W3, R1, R2, R5, R6, R7, R8, A1, A2, A3, A4, A5, A6.
  repeat split; try tauto; try lra; lia.
Qed.

(** X10.  A request without monthly expenses is treated as one without an
    emergency fund, whatever its savings: the ratio is 0, so the report
    warns of a missing emergency fund, recommends to build one quoting 0.0
    months, and opens the action plan with the savings account. *)
Theorem no_expenses_means_no_fund (now : datetime) (data : FinancialProfile) :
  data.(monthly_expenses) <= 0 ->
  exists report,
    returns (get_full_report_data now data) report /\
    In no_emergency_fund_warning report.(Report.urgent_attention_required) /\
    In "üö® Build emergency fund: You have 0.0 months of expenses. Aim for 6-12 months."
       report.(Report.personalized_recommendations) /\
    nth_error report.(Report.thirty_day_action_plan) 0
      = Some open_savings_action.
Proof.
  intros Hme.
  destruct (report_lists now data)
    as (score & breakdown & report & _ & Hrep & Ew & Er & Ep).
  exists report. split; [exact Hrep |].
  rewrite Ew, Er, Ep.
  assert (Hefm : emergency_fund_months_of data = 0).
  { unfold emergency_fund_months_of.
    apply Qltb_ge in Hme. rewrite Hme. reflexivity. }
  rewrite Hefm.
  split; [| split].
  - apply fired_warning_rules. lra.
  - change (In (emergency_fund_recommendation 0)
              (fired (recommendation_rules data score 0
                        (debt_to_income_of data) (savings_rate_of data)
                        (investment_rate_of data)))).
    apply fired_recommendation_rules. lra.
  - reflexivity.
Qed.

Lemma no_expenses_means_no_fund_witness :
  zero_profile.(monthly_expenses) <= 0 /\
  exists report,
    returns (get_full_report_data
               (mkDatetime 2025 1 1 9 0 0 0) zero_profile) report /\
    In no_emergency_fund_warning report.(Report.urgent_attention_required).
Proof.
  assert (H : zero_profile.(monthly_expenses) <= 0)
    by (unfold zero_profile; simpl; lra).
  split; [exact H |].
  destruct (no_expenses_means_no_fund (mkDatetime 2025 1 1 9 0 0 0)
              zero_profile H) as (report & Hrep & Hwarn & _).
  exists report. split; assumption.
Defined.

(** The breakdown of a request, with the debt burden and the liquidity
    score written out. *)
Lemma breakdown_entries (data : FinancialProfile) :
  exists score breakdown,
    returns (calculate_comprehensive_risk_score data) (score, breakdown) /\
    returns (dict_get "Debt Management" breakdown)
      ((1 - (if data.(salary) =? 0 then 1.0
             else pymin 1.0 ((data.(emi) + data.(liabilities) * 0.1)
                             / data.(salary)))) * 100) /\
    returns (dict_get "Liquidity Position" breakdown)
      ((if data.(monthly_expenses) =? 0 then 0.5
        else if data.(savings) / data.(monthly_expenses) >=? 12 then 1.0
        else if data.(savings) / data.(monthly_expenses) >=? 6 then 0.8
        else if data.(savings) / data.(monthly_expenses) >=? 3 then 0.6
        else pymin 1.0 (data.(savings) / data.(monthly_expenses) / 6))
       * 100).
Proof.
  destruct (behavioral_score_returns data) as (n & _ & Hbs).
  do 2 eexists. split; [| split].
  - apply (risk_score_returns data _ _ _ _ _ _ _ _
             (age_factor_returns _) (income_stability_returns _ _)
             (net_worth_ratio_returns _ _ _) (debt_burden_returns _ _ _)
             (liquidity_score_returns _ _) (credit_health_returns _ _)
             (investment_maturity_returns _ _) Hbs).
  - lookup.
  - lookup.
Qed.

(** X11.  The report and the breakdown tell the same story.  When the
    report warns of critical debt, the "Debt Management" entry of the
    breakdown is below 50; and, monthly expenses being non-negative, the
    plan opens with the savings account exactly when the "Liquidity
    Position" entry is below 60. *)
Theorem report_matches_breakdown (now : datetime) (data : FinancialProfile) :
  0 <= data.(monthly_expenses) ->
  exists score breakdown report debt_management liquidity_position,
    returns (calculate_comprehensive_risk_score data) (score, breakdown) /\
    returns (get_full_report_data now data) report /\
    returns (dict_get "Debt Management" breakdown) debt_management /\
    returns (dict_get "Liquidity Position" breakdown) liquidity_position /\
    (In critical_debt_warning report.(Report.urgent_attention_required) ->
       debt_management < 50) /\
    (In open_savings_action report.(Report.thirty_day_action_plan) <->
       liquidity_position < 60).
Proof.
  intros Hme.
  destruct (report_lists now data)
    as (score & breakdown & report & Hscore & Hrep & Ew & _ & Ep).
  destruct (breakdown_entries data) as (score' & breakdown' & Hs' & Hdm & Hlp).
  pose proof (returns_inj _ _ _ Hscore Hs') as E.
  injection E as -> ->.
  exists score', breakdown', report. do 2 eexists.
  split; [exact Hscore |]. split; [exact Hrep |].
  split; [exact Hdm |]. split; [exact Hlp |].
  rewrite Ew, Ep. split.
  - intros Hin. apply fired_warning_rules in Hin.
    unfold debt_to_income_of in Hin.
    destruct (salary data >? 0) eqn:Es; [| lra].
    apply Qltb_lt in Es.
    destruct (salary data =? 0) eqn:E0;
      [apply Qeq_bool_iff in E0; lra |].
    pymin_bound.
  - rewrite plan_item_iff by (vm_compute; reflexivity).
    destruct (fired_conditional_rules data (emergency_fund_months_of data)
                (debt_to_income_of data)) as (_ & _ & _ & A1 & _).
    rewrite A1. unfold emergency_fund_months_of.
    destruct (monthly_expenses data =? 0) eqn:E0.
    + apply Qeq_bool_iff in E0.
      assert (Eg : (monthly_expenses data >? 0) = false)
        by (apply Qltb_ge; lra).
      rewrite Eg. split; intros _; lra.
    + apply Qeqb_neq in E0.
      assert (Eg : (monthly_expenses data >? 0) = true)
        by (apply Qltb_lt; lra).
      rewrite Eg.
      set (em := savings data / monthly_expenses data).
      destruct (em >=? 12) eqn:E12;
        [apply Qle_bool_iff in E12; split; intros; lra |].
      destruct (em >=? 6) eqn:E6;
        [apply Qle_bool_iff in E6; split; intros; lra |].
      destruct (em >=? 3) eqn:E3;
        [apply Qle_bool_iff in E3; split; intros; lra |].
      apply Qleb_gt in E3.
      assert (Hdiv : em / 6 < 1 # 2)
        by (apply Qlt_shift_div_r; lra).
      split; intros _; [| exact E3].
      pymin_bound.
Qed.

Lemma report_matches_breakdown_witness :
  0 <= example_profile.(monthly_expenses) /\
  exists score breakdown liquidity_position,
    returns (calculate_comprehensive_risk_score example_profile)
      (score, breakdown) /\
    returns (dict_get "Liquidity Position" breakdown) liquidity_position /\
    ~ liquidity_position < 60.
Proof.
  assert (H : 0 <= example_profile.(monthly_expenses))
    by (unfold example_profile; simpl; lra).
  split; [exact H |].
  destruct (report_matches_breakdown (mkDatetime 2025 1 1 9 0 0 0)
              example_profile H)
    as (score & breakdown & report & dm & lp & Hs & Hrep & _ & Hlp & _ & Hiff).
  exists score, breakdown, lp.
  split; [exact Hs |]. split; [exact Hlp |].
  intros Hlt. apply Hiff in Hlt.
  destruct (report_lists (mkDatetime 2025 1 1 9 0 0 0) example_profile)
    as (s' & b' & report' & _ & Hrep' & _ & _ & Ep).
  rewrite (returns_inj _ _ _ Hrep Hrep'), Ep in Hlt.
  revert Hlt. apply not_In_existsb. vm_compute. reflexivity.
Defined.

(** ** The factors one by one *)

(** X12.  The credit health never decreases with the credit score, and a
    default multiplies it by 0.3. *)
Theorem credit_health_monotone (cs1 cs2 : Z) (d : bool) :
  (cs1 <= cs2)%Z ->
  exists v1 v2 clean after_default,
    returns (_calculate_credit_health cs1 d) v1 /\
    returns (_calculate_credit_health cs2 d) v2 /\
    v1 <= v2 /\
    returns (_calculate_credit_health cs1 false) clean /\
    returns (_calculate_credit_health cs1 true) after_default /\
    after_default == 0.3 * clean.
Proof.
  intros Hle. do 4 eexists.
  repeat (split; [apply credit_health_returns |]).
  split; [| split; [apply credit_health_returns |
                    split; [apply credit_health_returns |]]].
  - destruct d;
      repeat match goal with
        | |- context [(?a >=? ?n)%Z] => destruct (Z.geb_spec a n)
        end; (lra || lia).
  - repeat match goal with
      | |- context [(?a >=? ?n)%Z] => destruct (Z.geb_spec a n)
      end; ring.
Qed.

Lemma credit_health_monotone_witness :
  (600 <= 700)%Z /\
  exists v1 v2,
    returns (_calculate_credit_health 600 false) v1 /\
    returns (_calculate_credit_health 700 false) v2 /\
    v1 <= v2.
Proof.
  assert (H : (600 <= 700)%Z) by lia.
  split; [exact H |].
  destruct (credit_health_monotone 600 700 false H)
    as (v1 & v2 & _ & _ & H1 & H2 & Hle & _).
  exists v1, v2. repeat split; assumption.
Defined.

Lemma Qdiv_le_compat_r (a b c : Q) : 0 < c -> a <= b -> a / c <= b / c.
Proof.
  intros Hc Hab. apply Qle_shift_div_l; [exact Hc |].
  setoid_replace (a / c * c) with a by (field; lra). exact Hab.
Qed.

(** X13.  With positive monthly expenses, more savings never lower the
    liquidity score. *)
Theorem liquidity_score_monotone (s1 s2 me : Q) :
  0 < me -> s1 <= s2 ->
  exists v1 v2,
    returns (_calculate_liquidity_score s1 me) v1 /\
    returns (_calculate_liquidity_score s2 me) v2 /\
    v1 <= v2.
Proof.
  intros Hme Hle. do 2 eexists.
  split; [apply liquidity_score_returns |].
  split; [apply liquidity_score_returns |].
  destruct (me =? 0) eqn:E0; [apply Qeq_bool_iff in E0; lra |].
  pose proof (Qdiv_le_compat_r s1 s2 me Hme Hle) as Hd.
  pose proof (Qdiv_le_compat_r (s1 / me) (s2 / me) 6 ltac:(lra) Hd) as Hd6.
  assert (H1 : s1 / me < 3 -> s1 / me / 6 < 1 # 2)
    by (intros; apply Qlt_shift_div_r; lra).
  assert (H2 : s2 / me < 3 -> s2 / me / 6 < 1 # 2)
    by (intros; apply Qlt_shift_div_r; lra).
  destruct (s1 / me >=? 12) eqn:A1; [apply Qle_bool_iff in A1 |
    apply Qleb_gt in A1;
    destruct (s1 / me >=? 6) eqn:A2; [apply Qle_bool_iff in A2 |
      apply Qleb_gt in A2;
      destruct (s1 / me >=? 3) eqn:A3; [apply Qle_bool_iff in A3 |
        apply Qleb_gt in A3; specialize (H1 A3)]]];
  (destruct (s2 / me >=? 12) eqn:B1; [apply Qle_bool_iff in B1 |
    apply Qleb_gt in B1;
    destruct (s2 / me >=? 6) eqn:B2; [apply Qle_bool_iff in B2 |
      apply Qleb_gt in B2;
      destruct (s2 / me >=? 3) eqn:B3; [apply Qle_bool_iff in B3 |
        apply Qleb_gt in B3; specialize (H2 B3)]]]);
  try lra; pymin_bound.
Qed.

Lemma liquidity_score_monotone_witness :
  0 < 30000 /\ 50000 <= 200000 /\
  exists v1 v2,
    returns (_calculate_liquidity_score 50000 30000) v1 /\
    returns (_calculate_liquidity_score 200000 30000) v2 /\
    v1 <= v2.
Proof.
  assert (H1 : 0 < 30000) by lra.
  assert (H2 : 50000 <= 200000) by lra.
  split; [exact H1 |]. split; [exact H2 |].
  exact (liquidity_score_monotone 50000 200000 30000 H1 H2).
Defined.



(** X14.  With a positive city index the income stability never decreases
    with the salary. *)
Theorem income_stability_monotone (s1 s2 c : Q) :
  0 < c -> s1 <= s2 ->
  exists v1 v2,
    returns (_calculate_income_stability s1 c) v1 /\
    returns (_calculate_income_stability s2 c) v2 /\
    v1 <= v2.
Proof.
  intros Hc Hle. do 2 eexists.
  split; [apply income_stability_returns |].
  split; [apply income_stability_returns |].
  destruct (c =? 0) eqn:E0; [apply Qeq_bool_iff in E0; lra |].
  assert (Hc' : 0 < c * 100000) by lra.
  pose proof (Qdiv_le_compat_r s1 s2 _ Hc' Hle) as Hd.
  pose proof (Qdiv_le_compat_r _ _ 10 ltac:(lra) Hd) as Hd10.
  pymin_bound.
Qed.

Lemma income_stability_monotone_witness :
  0 < 1.5 /\ 1200000 <= 1500000 /\
  exists v1 v2,
    returns (_calculate_income_stability 1200000 1.5) v1 /\
    returns (_calculate_income_stability 1500000 1.5) v2 /\
    v1 <= v2.
Proof.
  assert (H1 : 0 < 1.5) by lra.
  assert (H2 : 1200000 <= 1500000) by lra.
  split; [exact H1 |]. split; [exact H2 |].
  exact (income_stability_monotone 1200000 1500000 1.5 H1 H2).
Defined.



Lemma str_in_two (x a b : string) :
  str_in x [a; b] = true <-> x = a \/ x = b.
Proof.
  unfold str_in. cbn [existsb].
  rewrite !orb_true_iff, !String.eqb_eq. intuition discriminate.
Qed.

Lemma str_in_three (x a b c : string) :
  str_in x [a; b; c] = true <-> x = a \/ x = b \/ x = c.
Proof.
  unfold str_in. cbn [existsb].
  rewrite !orb_true_iff, !String.eqb_eq. intuition discriminate.
Qed.

Lemma good_habits_bool (data : FinancialProfile) :
  good_habits data <->
  data.(budget)
  && str_in data.(expense_tracking) ["Monthly"; "Daily"]
  && str_in data.(insurance) ["Health"; "Life"; "Both"]
  && data.(retirement) && data.(automate) && negb data.(defaulted)
  && (data.(confidence) >=? 7)%Z && data.(review_goals) = true.
Proof.
  unfold good_habits.
  rewrite !andb_true_iff, str_in_two, str_in_three, negb_true_iff,
    Z.geb_le.
  tauto.
Qed.

(** X16.  The behavioral score is a number of eighths; it is 1 exactly
    when all eight habits hold, and at most 7/8 after a default. *)
Theorem behavioral_score_full (data : FinancialProfile) :
  exists (v : Q) (k : Z),
    returns (_calculate_behavioral_score data) v /\
    v == inject_Z k / 8 /\ (0 <= k <= 8)%Z /\
    (v == 1 <-> good_habits data) /\
    (data.(defaulted) = true -> v <= 7 / 8).
Proof.
  assert (Hbool : exists (v : Q) (k : Z),
             returns (_calculate_behavioral_score data) v /\
             v == inject_Z k / 8 /\ (0 <= k <= 8)%Z /\
             (v == 1 <->
              data.(budget)
              && str_in data.(expense_tracking) ["Monthly"; "Daily"]
              && str_in data.(insurance) ["Health"; "Life"; "Both"]
              && data.(retirement) && data.(automate)
              && negb data.(defaulted)
              && (data.(confidence) >=? 7)%Z && data.(review_goals)
              = true) /\
             (data.(defaulted) = true -> v <= 7 / 8)).
  { unfold _calculate_behavioral_score.
    destruct (budget data),
      (str_in (expense_tracking data) ["Monthly"; "Daily"]),
      (str_in (insurance data) ["Health"; "Life"; "Both"]),
      (retirement data), (automate data), (defaulted data),
      (confidence data >=? 7)%Z, (review_goals data);
      cbv zeta; cbn [negb andb Z.add Pos.add Pos.succ];
      (eexists; eexists; split;
       [apply returns_pydiv; intros H; discriminate H |];
       split; [reflexivity |];
       split; [split; apply Z.leb_le; reflexivity |];
       split;
       [ split; intros H; first [reflexivity | discriminate H]
       | intros H; first [discriminate H | intros C; discriminate C] ]). }
  destruct Hbool as (v & k & Hret & Hv & Hk & Hall & Hdef).
  exists v, k. rewrite good_habits_bool. auto.
Qed.

(** ** Ratios and factors *)

(** X17.  With a positive salary and positive assets the factors repeat
    the ratios: the debt burden is the debt-to-income ratio capped at 1,
    and the investment maturity is the asset utilization capped at 1. *)
Theorem factors_agree_with_ratios (data : FinancialProfile) :
  0 < data.(salary) -> 0 < data.(assets) ->
  exists ratios dti au burden maturity,
    returns (calculate_key_ratios data) ratios /\
    returns (dict_get "debt_to_income" ratios) dti /\
    returns (dict_get "asset_utilization" ratios) au /\
    returns (_calculate_debt_burden
               data.(emi) data.(liabilities) data.(salary)) burden /\
    returns (_calculate_investment_maturity
               data.(investments) data.(assets)) maturity /\
    burden = pymin 1.0 dti /\ maturity = pymin 1.0 au.
Proof.
  intros Hs Ha.
  exists (ratio_table data). do 4 eexists.
  split; [apply key_ratios_returns |].
  split; [unfold ratio_table; lookup |].
  split; [unfold ratio_table; lookup |].
  split; [apply debt_burden_returns |].
  split; [apply investment_maturity_returns |].
  cbv beta.
  assert (Es : (salary data >? 0) = true) by (apply Qltb_lt; exact Hs).
  assert (Ea : (assets data >? 0) = true) by (apply Qltb_lt; exact Ha).
  assert (Es0 : (salary data =? 0) = false) by (apply Qeqb_neq; lra).
  assert (Ea0 : (assets data =? 0) = false) by (apply Qeqb_neq; lra).
  rewrite Es, Ea, Es0, Ea0. split; reflexivity.
Qed.

Lemma factors_agree_with_ratios_witness :
  0 < example_profile.(salary) /\ 0 < example_profile.(assets) /\
  exists ratios dti burden,
    returns (calculate_key_ratios example_profile) ratios /\
    returns (dict_get "debt_to_income" ratios) dti /\
    returns (_calculate_debt_burden
               example_profile.(emi) example_profile.(liabilities)
               example_profile.(salary)) burden /\
    burden = pymin 1.0 dti.
Proof.
  assert (Hs : 0 < example_profile.(salary)) by reflexivity.
  assert (Ha : 0 < example_profile.(assets)) by reflexivity.
  split; [exact Hs |]. split; [exact Ha |].
  destruct (factors_agree_with_ratios example_profile Hs Ha)
    as (ratios & dti & au & burden & maturity & H1 & H2 & _ & H4 & _ & H6 & _).
  exists ratios, dti, burden. repeat split; assumption.
Defined.

(** X18.  The ratio table always has the same seven keys in the same
    order, and in the documented domain every ratio but the net worth is
    non-negative. *)
Theorem key_ratios_nonnegative (data : FinancialProfile) :
  valid_profile data ->
  exists ratios dti sr efm ir au er,
    returns (calculate_key_ratios data) ratios /\
    map fst ratios =
      [ "debt_to_income"; "savings_rate"; "emergency_fund_months";
        "investment_rate"; "net_worth"; "asset_utilization";
        "expense_ratio" ] /\
    returns (dict_get "debt_to_income" ratios) dti /\
    returns (dict_get "savings_rate" ratios) sr /\
    returns (dict_get "emergency_fund_months" ratios) efm /\
    returns (dict_get "investment_rate" ratios) ir /\
    returns (dict_get "asset_utilization" ratios) au /\
    returns (dict_get "expense_ratio" ratios) er /\
    0 <= dti /\ 0 <= sr /\ 0 <= efm /\ 0 <= ir /\ 0 <= au /\ 0 <= er.
Proof.
  intros (Hs & Hc & Ha & Hl & Hsv & Hi & Hm & He & Hr).
  exists (ratio_table data). do 6 eexists.
  split; [apply key_ratios_returns |].
  split; [reflexivity |].
  do 6 (split; [unfold ratio_table; lookup |]).
  cbv beta.
  destruct (salary data >? 0) eqn:Es;
    [apply Qltb_lt in Es | clear Es];
    (destruct (monthly_expenses data >? 0) eqn:Em;
       [apply Qltb_lt in Em | apply Qltb_ge in Em]);
    (destruct (assets data >? 0) eqn:Eas;
       [apply Qltb_lt in Eas | clear Eas]);
    repeat split; first [lra | apply Qdiv_nonneg; lra].
Qed.

Lemma key_ratios_nonnegative_witness :
  valid_profile example_profile /\
  exists ratios sr,
    returns (calculate_key_ratios example_profile) ratios /\
    returns (dict_get "savings_rate" ratios) sr /\
    0 <= sr.
Proof.
  split; [exact example_profile_valid |].
  destruct (key_ratios_nonnegative example_profile example_profile_valid)
    as (ratios & dti & sr & efm & ir & au & er & H).
  destruct H as (H1 & _ & _ & Hsr & _ & _ & _ & _ & _ & Hpos & _).
  exists ratios, sr. repeat split; assumption.
Defined.

(** ** Validation of a request *)

Lemma check_fields_object (fields : list string)
  (members : list (string * json)) :
  check_fields fields (JObject members) =
    match first_missing fields members with
    | Some field => BadRequest ("Missing field: " ++ field)
    | None => FieldsPresent
    end.
Proof.
  induction fields as [| field rest IH]; [reflexivity |].
  cbn [check_fields json_contains first_missing].
  destruct (existsb (String.eqb field) (map fst members)); [exact IH |].
  reflexivity.
Qed.

Lemma first_missing_none {V : Type} (keys : list string) (d : dict V) :
  first_missing keys d = None <->
  forall k, In k keys -> In k (map fst d).
Proof.
  induction keys as [| k keys IH]; cbn [first_missing].
  - split; [intros _ k [] | reflexivity].
  - destruct (existsb (String.eqb k) (map fst d)) eqn:E.
    + rewrite IH. apply In_existsb in E. split.
      * intros H k' [<- | Hin]; auto.
      * intros H k' Hin. apply H. right. exact Hin.
    + split; [discriminate |].
      intros H. assert (Hin : In k (map fst d)) by (apply H; left; reflexivity).
      apply In_existsb in Hin. congruence.
Qed.

Lemma first_missing_some {V : Type} (keys : list string) (d : dict V)
  (k : string) :
  first_missing keys d = Some k ->
  exists before after,
    keys = (before ++ k :: after)%list /\
    ~ In k (map fst d) /\
    forall k', In k' before -> In k' (map fst d).
Proof.
  induction keys as [| k0 keys IH]; cbn [first_missing]; [discriminate |].
  destruct (existsb (String.eqb k0) (map fst d)) eqn:E.
  - intros H. destruct (IH H) as (before & after & -> & Hk & Hbefore).
    exists (k0 :: before), after. split; [reflexivity |].
    split; [exact Hk |].
    intros k' [<- | Hin]; [apply In_existsb; exact E | auto].
  - intros H. injection H as <-.
    exists [], keys. split; [reflexivity |].
    split; [apply not_In_existsb; exact E | intros k' []].
Qed.

(** X19.  The two checks on a body that is a JSON object: the empty
    object is refused with "No input data provided"; an object that lacks a
    required field is refused with "Missing field: " and the first such
    field in the order of [required_fields]; an object with all required
    fields passes both checks, whatever else it holds, and the handler goes
    on to the coercions. *)
Theorem validate_object (members : list (string * json)) :
  (members = [] ->
     validate_request (JObject members)
     = BadRequest "No input data provided") /\
  (members <> [] ->
     (validate_request (JObject members) = FieldsPresent <->
        forall field, In field required_fields ->
                      In field (map fst members)) /\
     (forall field,
         validate_request (JObject members)
         = BadRequest ("Missing field: " ++ field) ->
         exists before after,
           required_fields = (before ++ field :: after)%list /\
           ~ In field (map fst members) /\
           forall f, In f before -> In f (map fst members)) /\
     (validate_request (JObject members) <> FieldsPresent ->
        exists field,
          In field required_fields /\
          validate_request (JObject members)
          = BadRequest ("Missing field: " ++ field))).
Proof.
  destruct members as [| m members].
  - split; [reflexivity | intros H; congruence].
  - assert (E : validate_request (JObject (m :: members))
                = match first_missing required_fields (m :: members) with
                  | Some field => BadRequest ("Missing field: " ++ field)
                  | None => FieldsPresent
                  end)
      by (unfold validate_request; cbn [truthy negb];
          apply check_fields_object).
    rewrite E.
    split; [discriminate |]. intros _.
    split; [| split].
    + rewrite <- first_missing_none.
      destruct (first_missing required_fields (m :: members));
        split; (discriminate || reflexivity).
    + intros field H.
      destruct (first_missing required_fields (m :: members)) as [f |] eqn:F;
        [| discriminate H].
      injection H as H.
      assert (f = field) as <-.
      { revert H. clear. revert field.
        induction f as [| c f IH]; intros [| c' field] H; cbn in H;
          try reflexivity; try discriminate H.
        injection H as -> H. f_equal. apply IH.
        cbn. f_equal. exact H. }
      apply first_missing_some. exact F.
    + intros H.
      destruct (first_missing required_fields (m :: members)) as [f |] eqn:F;
        [| congruence].
      exists f. split; [| reflexivity].
      apply first_missing_some in F.
      destruct F as (before & after & -> & _).
      apply in_or_app. right. left. reflexivity.
Qed.

Lemma validate_object_witness :
  [("age", JInt 30)] <> [] /\
  exists before after,
    required_fields = (before ++ "salary" :: after)%list /\
    ~ In "salary" (map fst [("age", JInt 30)]).
Proof.
  assert (H : [("age", JInt 30)] <> []) by discriminate.
  split; [exact H |].
  destruct (validate_object [("age", JInt 30)]) as (_ & Hcases).
  destruct (Hcases H) as (_ & Hmissing & _).
  destruct (Hmissing "salary" eq_refl) as (before & after & E & Hnot & _).
  exists before, after. split; assumption.
Defined.

(** X20.  A body that is a scalar is never validated: null, false and zero
    are refused with "No input data provided" (status 400), while true and
    the other numbers make the membership test raise, which the handler
    answers with status 500. *)
Theorem validate_scalar (data : json) :
  scalar data = true ->
  validate_request data =
    if truthy data then InternalServerError
    else BadRequest "No input data provided".
Proof.
  destruct data as [| b | n | x | s | items | members];
    try discriminate; intros _; unfold validate_request;
    cbn [truthy]; try reflexivity.
  - destruct b; reflexivity.
  - destruct (n =? 0)%Z; reflexivity.
  - destruct (x =? 0); reflexivity.
Qed.

Lemma validate_scalar_witness :
  scalar (JInt 5) = true /\
  validate_request (JInt 5) = InternalServerError.
Proof.
  split; [reflexivity |].
  exact (validate_scalar (JInt 5) eq_refl).
Defined.
